(** * MomentumTrader: the decision engine of the trading loop

    A shallow embedding of [momentum_trader/Logic/wallet.py] and
    [momentum_trader/Logic/trading_bot.py].

    Numbers.  Python floats are read as exact rationals ([Q]); Python ints
    as [Z].  Timestamps ([datetime]) are microseconds on the integer line,
    a [timedelta(minutes=m)] is [m * 60_000_000].  The affordability check
    of the ledger is given a second time on binary64 floats ([Wallet64]),
    each product and sum rounded as Python rounds it.  [np.std] is the real
    square root of the population variance ([np_std]); the code's
    comparisons against it are decided on rationals by comparing squares.

    Effects.  Exceptions are an error monad ([pyres]).  The exchange is the
    abstract interface [ExchangeClient] acting on a world [W].  The file
    [params.json] is a finite map from keys to JSON numbers.  The calls that
    cancel or place orders and the writes of the file are recorded in a
    trace.  The text sinks
    (application log, price log, order log) are not modelled, with one
    exception: [_on_start] runs inside [__init__] before the attribute
    [log_event] is bound, so the binding is part of the bot's state. *)

From Stdlib Require Import ZArith QArith Qminmax Qround Qabs Lia Lqa List Sorted.
From Stdlib Require Import Reals Qreals Floats.
From Stdlib Require Lra.
From stdpp Require Import gmap strings.
Import ListNotations.

Local Open Scope Q_scope.

(** ** Python values and exceptions *)

Module Py.

Inductive exn : Set :=
| ZeroDivisionError
| AttributeError
| SystemExit.

Inductive pyres (A : Type) : Type :=
| Ok (a : A)
| Raise (e : exn).

Arguments Ok {A} a.
Arguments Raise {A} e.

Definition bind {A B : Type} (c : pyres A) (k : A -> pyres B) : pyres B :=
  match c with
  | Ok a => k a
  | Raise e => Raise e
  end.

(** [a < b], [a > b] and [a <= b] on floats, as booleans. *)
Definition ltb (a b : Q) : bool := negb (Qle_bool b a).
Definition gtb (a b : Q) : bool := ltb b a.
Definition geb (a b : Q) : bool := Qle_bool b a.

(** [x / y] on floats raises when [y] is zero. *)
Definition truediv (x y : Q) : pyres Q :=
  if Qeq_bool y 0 then Raise ZeroDivisionError else Ok (x / y).

(** [round(x)] rounds to the nearest integer, ties to even. *)
Definition round_half_even (x : Q) : Z :=
  let f := Qfloor x in
  match Qcompare (x - inject_Z f) (1 # 2) with
  | Lt => f
  | Gt => (f + 1)%Z
  | Eq => if Z.even f then f else (f + 1)%Z
  end.

(** [round(x, 2)]. *)
Definition round2 (x : Q) : Q := inject_Z (round_half_even (x * 100)) / 100.

(** [o or d] for an optional float: [None] and [0.0] are both falsy. *)
Definition or_float (o : option Q) (d : Q) : Q :=
  match o with
  | Some x => if Qeq_bool x 0 then d else x
  | None => d
  end.

End Py.

Import Py.

Declare Scope py_scope.
Delimit Scope py_scope with py.
Notation "'try' x <~ c ;; k" := (bind c (fun x => k))
  (at level 10, x name, c at level 99, k at level 200) : py_scope.
Local Open Scope py_scope.

(** ** config.py *)

Record TradingConfig : Type := {
  asset : string;
  price_movement_threshold : Q;
  price_resolution_minutes : Z;
  momentum_lookback_window_minutes : Z;
  momentum_std_threshold : Q;
  order_size_factor : Z;
  max_order_size_multiplier : Z;
  maker_fee_rate : Q;
  taker_fee_rate : Q;
  price_validation_threshold : Q;
  price_adjustment_offset : Q
}.

Definition momentum_history_window_minutes (c : TradingConfig) : Z :=
  (2 * momentum_lookback_window_minutes c)%Z.

Definition DEFAULT_TRADING_CONFIG : TradingConfig := {|
  asset := "BTC-USDT";
  price_movement_threshold := 1 # 100;
  price_resolution_minutes := 1;
  momentum_lookback_window_minutes := 30;
  momentum_std_threshold := 1;
  order_size_factor := 65;
  max_order_size_multiplier := 6;
  maker_fee_rate := 8 # 10000;
  taker_fee_rate := 1 # 1000;
  price_validation_threshold := 12 # 10;
  price_adjustment_offset := 1 # 1000
|}.

(** ** Logic/wallet.py *)

Module Wallet.

Inductive OrderType : Set := MAKER | TAKER.

(** One entry of [executed_orders]. *)
Record ExecutedOrder : Type := {
  eo_local_ts : string;
  eo_side : string;
  eo_price_expected : Q;
  eo_price_actual : Q;
  eo_size_expected : Q;
  eo_size_actual : Q;
  eo_asset : string;
  eo_fee : Q;
  eo_order_id : Z;
  eo_account_btc_size : Q;
  eo_account_usdt_size : Q;
  eo_fee_rate : Q;
  eo_fill_time_ms : string;
  eo_order_type : string
}.

Record WalletManager : Type := {
  current_btc : Q;
  current_usdt : Q;
  paid_commission : Q;
  expected_commission : Q;
  commission_rate_maker : Q;
  commission_rate_taker : Q;
  order_type : OrderType;
  commission_rate : Q;
  executed_orders : gmap Z ExecutedOrder
}.

(** [WalletManager.__init__] *)
Definition init (initial_btc initial_usdt rate_maker rate_taker : Q)
    (ot : OrderType) : WalletManager := {|
  current_btc := initial_btc;
  current_usdt := initial_usdt;
  paid_commission := 0;
  expected_commission := 0;
  commission_rate_maker := rate_maker;
  commission_rate_taker := rate_taker;
  order_type := ot;
  commission_rate := rate_taker;
  executed_orders := ∅
|}.

Definition _check_buy_order (w : WalletManager) (price size_btc : Q) : bool :=
  let total_cost := size_btc * price * (1 + commission_rate w) in
  if ltb (current_usdt w) total_cost then false else true.

Definition _check_sell_order (w : WalletManager) (price size_btc : Q) : bool :=
  if ltb (current_btc w) (size_btc * (1 + commission_rate w)) then false else true.

Definition check_order_size (w : WalletManager) (price size_btc : Q)
    (side : string) : pyres Q :=
  if String.eqb side "buy" then
    if negb (_check_buy_order w price size_btc) then Ok 0 else Ok size_btc
  else if String.eqb side "sell" then
    if negb (_check_sell_order w price size_btc) then Ok 0 else Ok size_btc
  else Raise SystemExit.

Definition update_executed_order (w : WalletManager) (e : ExecutedOrder)
    : WalletManager := {|
  current_btc := eo_account_btc_size e;
  current_usdt := eo_account_usdt_size e;
  paid_commission := paid_commission w;
  expected_commission := expected_commission w;
  commission_rate_maker := commission_rate_maker w;
  commission_rate_taker := commission_rate_taker w;
  order_type := order_type w;
  commission_rate := commission_rate w;
  executed_orders := <[eo_order_id e := e]> (executed_orders w)
|}.

Definition get_summary (w : WalletManager) : Q := expected_commission w.

(** The calls a client can make on a ledger after it is built. *)
Inductive call : Type :=
| CallCheck (price size_btc : Q) (side : string)
| CallUpdate (e : ExecutedOrder)
| CallSummary.

Definition run_call (w : WalletManager) (c : call) : WalletManager :=
  match c with
  | CallCheck _ _ _ => w
  | CallUpdate e => update_executed_order w e
  | CallSummary => w
  end.

Definition run_calls (w : WalletManager) (cs : list call) : WalletManager :=
  fold_left run_call cs w.

End Wallet.

(** ** Logic/trading_bot.py: data *)

Definition NOT_ENOUGH_BALANCE : Z := (-55)%Z.

Inductive OrderStatus : Set :=
| FILLED
| WAITING
| CANCELED
| STATUS_NOT_ENOUGH_BALANCE.

Record OrderExecutionResult : Type := {
  order_status : OrderStatus;
  executed_order_id : Z;
  executed_price : Q;
  executed_size : Q;
  executed_side : string;
  fill_time_ms : string
}.

Record PricePoint : Type := { pp_timestamp : Z; pp_price : Q }.
Record MomentumPoint : Type := { mp_timestamp : Z; mp_momentum : Q }.

(** [timedelta(minutes=m)] in microseconds. *)
Definition minutes (m : Z) : Z := (m * 60000000)%Z.

(** [(t1 - t0).total_seconds() / 60] *)
Definition minutes_between (t0 t1 : Z) : Q :=
  (inject_Z (t1 - t0) / 1000000) / 60.

(** A number in [params.json]: Python writes a float with a fraction part
    and an int without one, and reads them back as such. *)
Inductive jnum : Type :=
| JFloat (x : Q)
| JInt (n : Z).

(** A float attribute read from a JSON number. *)
Definition float_of (v : jnum) : Q :=
  match v with
  | JFloat x => x
  | JInt n => inject_Z n
  end.

(** An order id read from a JSON number; the writer only stores ints there,
    a float is cut to its integer part. *)
Definition int_of (v : jnum) : Z :=
  match v with
  | JInt n => n
  | JFloat x => Qfloor x
  end.

Record TradingBot : Type := {
  config : TradingConfig;
  expected_sell_size : Q;
  expected_buy_size : Q;
  expected_buy_price : Q;
  expected_sell_price : Q;
  last_price : Q;
  min_size : Q;
  order_start_size : Q;
  wallet : Wallet.WalletManager;
  usdt_size : Q;
  log_event_bound : bool;
  price_history : list PricePoint;
  momentum_history : list MomentumPoint;
  buy_order_id : Z;
  sell_order_id : Z;
  buy_size_btc : Q;
  sell_size_btc : Q
}.

(** Field updates, one per attribute the methods assign. *)
Definition set_expected_sell_size (v : Q) (b : TradingBot) : TradingBot :=
  {| config := config b; expected_sell_size := v;
     expected_buy_size := expected_buy_size b;
     expected_buy_price := expected_buy_price b;
     expected_sell_price := expected_sell_price b; last_price := last_price b;
     min_size := min_size b; order_start_size := order_start_size b;
     wallet := wallet b; usdt_size := usdt_size b;
     log_event_bound := log_event_bound b;
     price_history := price_history b; momentum_history := momentum_history b;
     buy_order_id := buy_order_id b; sell_order_id := sell_order_id b;
     buy_size_btc := buy_size_btc b; sell_size_btc := sell_size_btc b |}.

Definition set_expected_buy_size (v : Q) (b : TradingBot) : TradingBot :=
  {| config := config b; expected_sell_size := expected_sell_size b;
     expected_buy_size := v;
     expected_buy_price := expected_buy_price b;
     expected_sell_price := expected_sell_price b; last_price := last_price b;
     min_size := min_size b; order_start_size := order_start_size b;
     wallet := wallet b; usdt_size := usdt_size b;
     log_event_bound := log_event_bound b;
     price_history := price_history b; momentum_history := momentum_history b;
     buy_order_id := buy_order_id b; sell_order_id := sell_order_id b;
     buy_size_btc := buy_size_btc b; sell_size_btc := sell_size_btc b |}.

Definition set_expected_buy_price (v : Q) (b : TradingBot) : TradingBot :=
  {| config := config b; expected_sell_size := expected_sell_size b;
     expected_buy_size := expected_buy_size b;
     expected_buy_price := v;
     expected_sell_price := expected_sell_price b; last_price := last_price b;
     min_size := min_size b; order_start_size := order_start_size b;
     wallet := wallet b; usdt_size := usdt_size b;
     log_event_bound := log_event_bound b;
     price_history := price_history b; momentum_history := momentum_history b;
     buy_order_id := buy_order_id b; sell_order_id := sell_order_id b;
     buy_size_btc := buy_size_btc b; sell_size_btc := sell_size_btc b |}.

Definition set_expected_sell_price (v : Q) (b : TradingBot) : TradingBot :=
  {| config := config b; expected_sell_size := expected_sell_size b;
     expected_buy_size := expected_buy_size b;
     expected_buy_price := expected_buy_price b;
     expected_sell_price := v; last_price := last_price b;
     min_size := min_size b; order_start_size := order_start_size b;
     wallet := wallet b; usdt_size := usdt_size b;
     log_event_bound := log_event_bound b;
     price_history := price_history b; momentum_history := momentum_history b;
     buy_order_id := buy_order_id b; sell_order_id := sell_order_id b;
     buy_size_btc := buy_size_btc b; sell_size_btc := sell_size_btc b |}.

Definition set_last_price (v : Q) (b : TradingBot) : TradingBot :=
  {| config := config b; expected_sell_size := expected_sell_size b;
     expected_buy_size := expected_buy_size b;
     expected_buy_price := expected_buy_price b;
     expected_sell_price := expected_sell_price b; last_price := v;
     min_size := min_size b; order_start_size := order_start_size b;
     wallet := wallet b; usdt_size := usdt_size b;
     log_event_bound := log_event_bound b;
     price_history := price_history b; momentum_history := momentum_history b;
     buy_order_id := buy_order_id b; sell_order_id := sell_order_id b;
     buy_size_btc := buy_size_btc b; sell_size_btc := sell_size_btc b |}.

Definition set_wallet (v : Wallet.WalletManager) (b : TradingBot) : TradingBot :=
  {| config := config b; expected_sell_size := expected_sell_size b;
     expected_buy_size := expected_buy_size b;
     expected_buy_price := expected_buy_price b;
     expected_sell_price := expected_sell_price b; last_price := last_price b;
     min_size := min_size b; order_start_size := order_start_size b;
     wallet := v; usdt_size := usdt_size b;
     log_event_bound := log_event_bound b;
     price_history := price_history b; momentum_history := momentum_history b;
     buy_order_id := buy_order_id b; sell_order_id := sell_order_id b;
     buy_size_btc := buy_size_btc b; sell_size_btc := sell_size_btc b |}.

Definition set_price_history (v : list PricePoint) (b : TradingBot) : TradingBot :=
  {| config := config b; expected_sell_size := expected_sell_size b;
     expected_buy_size := expected_buy_size b;
     expected_buy_price := expected_buy_price b;
     expected_sell_price := expected_sell_price b; last_price := last_price b;
     min_size := min_size b; order_start_size := order_start_size b;
     wallet := wallet b; usdt_size := usdt_size b;
     log_event_bound := log_event_bound b;
     price_history := v; momentum_history := momentum_history b;
     buy_order_id := buy_order_id b; sell_order_id := sell_order_id b;
     buy_size_btc := buy_size_btc b; sell_size_btc := sell_size_btc b |}.

Definition set_momentum_history (v : list MomentumPoint) (b : TradingBot)
    : TradingBot :=
  {| config := config b; expected_sell_size := expected_sell_size b;
     expected_buy_size := expected_buy_size b;
     expected_buy_price := expected_buy_price b;
     expected_sell_price := expected_sell_price b; last_price := last_price b;
     min_size := min_size b; order_start_size := order_start_size b;
     wallet := wallet b; usdt_size := usdt_size b;
     log_event_bound := log_event_bound b;
     price_history := price_history b; momentum_history := v;
     buy_order_id := buy_order_id b; sell_order_id := sell_order_id b;
     buy_size_btc := buy_size_btc b; sell_size_btc := sell_size_btc b |}.

Definition set_order_ids (sell_id buy_id : Z) (b : TradingBot) : TradingBot :=
  {| config := config b; expected_sell_size := expected_sell_size b;
     expected_buy_size := expected_buy_size b;
     expected_buy_price := expected_buy_price b;
     expected_sell_price := expected_sell_price b; last_price := last_price b;
     min_size := min_size b; order_start_size := order_start_size b;
     wallet := wallet b; usdt_size := usdt_size b;
     log_event_bound := log_event_bound b;
     price_history := price_history b; momentum_history := momentum_history b;
     buy_order_id := buy_id; sell_order_id := sell_id;
     buy_size_btc := buy_size_btc b; sell_size_btc := sell_size_btc b |}.

Definition set_sizes (buy_size sell_size : Q) (b : TradingBot) : TradingBot :=
  {| config := config b; expected_sell_size := expected_sell_size b;
     expected_buy_size := expected_buy_size b;
     expected_buy_price := expected_buy_price b;
     expected_sell_price := expected_sell_price b; last_price := last_price b;
     min_size := min_size b; order_start_size := order_start_size b;
     wallet := wallet b; usdt_size := usdt_size b;
     log_event_bound := log_event_bound b;
     price_history := price_history b; momentum_history := momentum_history b;
     buy_order_id := buy_order_id b; sell_order_id := sell_order_id b;
     buy_size_btc := buy_size; sell_size_btc := sell_size |}.

(** ** Logic/trading_bot.py: methods that touch only the bot *)

(** [min(a, b)] and [max(a, b)]: the first argument wins a tie. *)
Definition py_min (a b : Q) : Q := if ltb b a then b else a.
Definition py_max (a b : Q) : Q := if gtb b a then b else a.

Definition _is_valid_price (b : TradingBot) (price : Q) : bool :=
  ltb (Qabs (price - last_price b))
      (last_price b * price_validation_threshold (config b)).

Definition _add_price_to_history (price : Q) (timestamp : Z) (b : TradingBot)
    : TradingBot :=
  let appended := price_history b ++ [{| pp_timestamp := timestamp; pp_price := price |}] in
  let cutoff_time :=
    (timestamp - minutes (momentum_history_window_minutes (config b)
                          + momentum_lookback_window_minutes (config b)))%Z in
  set_price_history
    (List.filter (fun p => (cutoff_time <=? pp_timestamp p)%Z) appended) b.

(** The points of the history inside [[current - lookback, current)], in
    the order of the list. *)
Definition recent_data (b : TradingBot) (current_timestamp : Z) : list PricePoint :=
  let lookback_time :=
    (current_timestamp - minutes (momentum_lookback_window_minutes (config b)))%Z in
  List.filter
    (fun p => (lookback_time <=? pp_timestamp p)%Z
              && (pp_timestamp p <? current_timestamp)%Z)
    (price_history b).

Definition _calculate_current_momentum (b : TradingBot) (current_price : Q)
    (current_timestamp : Z) : pyres Q :=
  match price_history b with
  | [] => Ok 0
  | _ :: _ =>
    match recent_data b current_timestamp with
    | [] => Ok 0
    | start :: _ =>
      let start_price := pp_price start in
      let start_time := pp_timestamp start in
      let time_diff := minutes_between start_time current_timestamp in
      if gtb time_diff 0 then
        try ratio <~ truediv (current_price - start_price) start_price ;;
        let price_change_pct := ratio * 100 in
        Ok (price_change_pct / time_diff)
      else Ok 0
    end
  end.

(** [np.mean] and the square of [np.std] (population variance). *)
Definition Qsum (l : list Q) : Q := fold_right Qplus 0 l.
Definition np_mean (l : list Q) : Q := Qsum l / inject_Z (Z.of_nat (length l)).
Definition np_var (l : list Q) : Q :=
  let mu := np_mean l in
  np_mean (List.map (fun x => (x - mu) * (x - mu)) l).

(** [d > k * sqrt v] for [v >= 0], decided on rationals by comparing
    squares; [np.std] is [sqrt (np_var l)]. *)
Definition gt_scaled_sqrt (d k v : Q) : bool :=
  if geb k 0 then gtb d 0 && gtb (d * d) (k * k * v)
  else gtb d 0 || ltb (d * d) (k * k * v).

(** [np.std] of a list as a real number: the square root of the
    population variance. *)
Definition np_std (l : list Q) : R := R_sqrt.sqrt (Q2R (np_var l)).

(** The list [recent_momentum_list] after the candidate is appended. *)
Definition recent_momentum_list (b : TradingBot) (current_momentum : Q)
    (current_timestamp : Z) : list Q :=
  let lookback_time :=
    (current_timestamp - minutes (momentum_history_window_minutes (config b)))%Z in
  List.map mp_momentum
    (List.filter (fun m => (lookback_time <=? mp_timestamp m)%Z) (momentum_history b))
  ++ [current_momentum].

Definition _is_extreme_momentum (b : TradingBot) (current_momentum : Q)
    (current_timestamp : Z) : pyres bool :=
  try ratio <~ truediv (inject_Z (momentum_history_window_minutes (config b)))
                       (inject_Z (price_resolution_minutes (config b))) ;;
  let min_required_points := ratio - 1 in
  let l := recent_momentum_list b current_momentum current_timestamp in
  if ltb (inject_Z (Z.of_nat (length l))) min_required_points then Ok false
  else
    let mean_momentum := np_mean l in
    let var_momentum := np_var l in
    if gtb var_momentum 0 then
      (* std > 0: thresholds are mean +/- momentum_std_threshold * std *)
      Ok (gt_scaled_sqrt (current_momentum - mean_momentum)
                         (momentum_std_threshold (config b)) var_momentum
          || gt_scaled_sqrt (mean_momentum - current_momentum)
                            (momentum_std_threshold (config b)) var_momentum)
    else
      let high_threshold := mean_momentum + (1 # 100) in
      let low_threshold := mean_momentum - (1 # 100) in
      Ok (gtb current_momentum high_threshold || ltb current_momentum low_threshold).

Definition _add_momentum_to_history (momentum : Q) (timestamp : Z)
    (b : TradingBot) : TradingBot :=
  let appended :=
    momentum_history b ++ [{| mp_timestamp := timestamp; mp_momentum := momentum |}] in
  let cutoff_time :=
    (timestamp - minutes (momentum_history_window_minutes (config b)))%Z in
  set_momentum_history
    (List.filter (fun m => (cutoff_time <=? mp_timestamp m)%Z) appended) b.

(** The ceiling [max_order_size_multiplier * order_start_size]. *)
Definition size_cap (b : TradingBot) : Q :=
  inject_Z (max_order_size_multiplier (config b)) * order_start_size b.

Definition _adjust_order_sizes (executed_side : string) (b : TradingBot)
    : TradingBot :=
  if String.eqb executed_side "buy" then
    let doubled := buy_size_btc b + buy_size_btc b in
    set_sizes (py_min (size_cap b) doubled) (order_start_size b) b
  else if String.eqb executed_side "sell" then
    let doubled := sell_size_btc b + sell_size_btc b in
    set_sizes (order_start_size b) (py_min (size_cap b) doubled) b
  else b.

(** The dictionary [parameters] that [_save_runtime_params] dumps. *)
Definition runtime_parameters (b : TradingBot) : gmap string jnum :=
  <["last_price" := JFloat (last_price b)]>
  (<["buy_size_btc" := JFloat (buy_size_btc b)]>
  (<["sell_size_btc" := JFloat (sell_size_btc b)]>
  (<["buy_order_id" := JInt (buy_order_id b)]>
  (<["sell_order_id" := JInt (sell_order_id b)]> ∅)))).

(** [self.log_event(...)]: the attribute is looked up on the instance. *)
Definition self_log_event (b : TradingBot) : pyres unit :=
  if log_event_bound b then Ok tt else Raise AttributeError.

(** ** The exchange, the file and the trace *)

(** The methods of [Clients/base_client.py] that the bot calls.  The fee
    rate of the fill details arrives as text; [None] stands for ['N/A']. *)
Class ExchangeClient (W : Type) : Type := {
  get_price : string -> W -> option Q * W;
  get_minimum_size : string -> W -> option Q * W;
  place_order : string -> Q -> Q -> W -> option Z * W;
  check_order_status : Z -> W -> (string * Q * Q * Q) * W;
  get_order_fill_details : Z -> W -> option (string * option Q * string) * W;
  get_account_balance : string -> W -> Q * W;
  close_all_orders : W -> W
}.

Inductive event : Type :=
| EvCloseAll
| EvPlaceOrder (side : string) (price size : Q)
| EvSaveParams (parameters : gmap string jnum).

Record Machine (W : Type) : Type := {
  world : W;
  bot : TradingBot;
  params_file : option (gmap string jnum);
  trace : list event
}.

Arguments world {W} _.
Arguments bot {W} _.
Arguments params_file {W} _.
Arguments trace {W} _.

Definition with_bot {W} (f : TradingBot -> TradingBot) (m : Machine W) : Machine W :=
  {| world := world m; bot := f (bot m);
     params_file := params_file m; trace := trace m |}.

Definition with_world {W} (w : W) (m : Machine W) : Machine W :=
  {| world := w; bot := bot m; params_file := params_file m; trace := trace m |}.

Definition emit {W} (e : event) (m : Machine W) : Machine W :=
  {| world := world m; bot := bot m;
     params_file := params_file m; trace := trace m ++ [e] |}.

(** ** Logic/trading_bot.py: methods that reach the exchange or the file *)

Section Bot.

Context {W : Type} {EX : ExchangeClient W}.

Definition _get_account_balance (m : Machine W) : (Q * Q) * Machine W :=
  let '(account_btc_size, w1) := get_account_balance "BTC" (world m) in
  let '(account_usdt_size, w2) := get_account_balance "USDT" w1 in
  ((account_btc_size, account_usdt_size), with_world w2 m).

Definition _save_runtime_params (m : Machine W) : Machine W :=
  {| world := world m; bot := bot m;
     params_file := Some (runtime_parameters (bot m));
     trace := trace m ++ [EvSaveParams (runtime_parameters (bot m))] |}.

Definition _close_open_orders (m : Machine W) : Machine W :=
  emit EvCloseAll
    (with_bot (set_order_ids 0 0) (with_world (close_all_orders (world m)) m)).

(** [place_order] followed by [int(result) if result else 0]. *)
Definition place_and_read (side : string) (price size : Q) (m : Machine W)
    : Z * Machine W :=
  let '(result, w1) := place_order side price size (world m) in
  (match result with Some id => id | None => 0%Z end,
   emit (EvPlaceOrder side price size) (with_world w1 m)).

Definition _set_new_orders (current_price : Q) (m : Machine W)
    : pyres ((Z * Z) * Machine W) :=
  let cfg := config (bot m) in
  (* sell side, lines 242-254 *)
  let little_below_current_price :=
    round2 (current_price * (1 - price_adjustment_offset cfg)) in
  let m := with_bot (fun b =>
    set_expected_sell_price
      (round2 (last_price b * (1 + price_movement_threshold cfg))) b) m in
  let m := with_bot (fun b =>
    set_expected_sell_size
      (py_max (expected_sell_price b) little_below_current_price) b) m in
  try approved_sell <~
    Wallet.check_order_size (wallet (bot m)) (expected_sell_price (bot m))
                            (sell_size_btc (bot m)) "sell" ;;
  let m := with_bot (set_expected_sell_size approved_sell) m in
  let '(sell_order_id, m) :=
    if gtb (expected_sell_size (bot m)) 0
    then place_and_read "sell" (expected_sell_price (bot m))
                        (expected_sell_size (bot m)) m
    else (0%Z, m) in
  let sell_order_id :=
    if (sell_order_id =? 0)%Z then NOT_ENOUGH_BALANCE else sell_order_id in
  (* buy side, lines 256-268 *)
  let little_above_current_price :=
    round2 (current_price * (1 + price_adjustment_offset cfg)) in
  let m := with_bot (fun b =>
    set_expected_buy_price
      (round2 (last_price b * (1 - price_movement_threshold cfg))) b) m in
  let m := with_bot (fun b =>
    set_expected_buy_price
      (py_min (expected_buy_price b) little_above_current_price) b) m in
  try approved_buy <~
    Wallet.check_order_size (wallet (bot m)) (expected_buy_price (bot m))
                            (buy_size_btc (bot m)) "buy" ;;
  let m := with_bot (set_expected_buy_size approved_buy) m in
  let '(buy_order_id, m) :=
    if gtb (expected_buy_size (bot m)) 0
    then place_and_read "buy" (expected_buy_price (bot m))
                        (expected_buy_size (bot m)) m
    else (0%Z, m) in
  let buy_order_id :=
    if (buy_order_id =? 0)%Z then NOT_ENOUGH_BALANCE else buy_order_id in
  Ok ((sell_order_id, buy_order_id), m).

Definition default_fill_time : string := "2111-01-01 00:00:00 UTC".

Definition status_of_exchange (status : string) : OrderStatus :=
  if String.eqb status "filled" || String.eqb status "partially_filled" then FILLED
  else if String.eqb status "canceled" then CANCELED
  else if String.eqb status "failed" then CANCELED
  else WAITING.

Definition _check_order_status (order_id : Z) (side : string)
    (expected_price expected_size : Q) (local_ts : string) (m : Machine W)
    : OrderExecutionResult * Machine W :=
  if (order_id =? NOT_ENOUGH_BALANCE)%Z then
    ({| order_status := STATUS_NOT_ENOUGH_BALANCE; executed_order_id := order_id;
        executed_price := 0; executed_size := 0; executed_side := "";
        fill_time_ms := default_fill_time |}, m)
  else if (order_id =? 0)%Z then
    ({| order_status := CANCELED; executed_order_id := 0;
        executed_price := 0; executed_size := 0; executed_side := "";
        fill_time_ms := default_fill_time |}, m)
  else
    let '((status, price, size, fee), w1) := check_order_status order_id (world m) in
    let m := with_world w1 m in
    match status_of_exchange status with
    | FILLED =>
      let executed_order_id := order_id in
      let executed_price := price in
      let executed_size := size in
      let executed_fee := fee in
      let fee_rate0 :=
        if gtb (executed_price * executed_size) 0
        then (executed_fee / (executed_price * executed_size)) * 100 else 0 in
      let order_type0 : string :=
        if gtb (executed_price * executed_size) 0
        then (if gtb fee_rate0 (8 # 100) then "Taker" else "Maker") else "NA" in
      let '(order_details, w2) := get_order_fill_details executed_order_id (world m) in
      let m := with_world w2 m in
      let '(order_type, fee_rate, fill_time) :=
        match order_details with
        | None => (order_type0, fee_rate0, default_fill_time)
        | Some (ot, fee_rate_str, ft) =>
          (ot, match fee_rate_str with Some r => r | None => 0 end, ft)
        end in
      let m :=
        if negb (executed_order_id =? 0)%Z then
          let '((account_btc_size, account_usdt_size), m) := _get_account_balance m in
          let m := with_bot (fun b =>
            set_wallet (Wallet.update_executed_order (wallet b)
              {| Wallet.eo_local_ts := local_ts;
                 Wallet.eo_side := side;
                 Wallet.eo_price_expected := expected_price;
                 Wallet.eo_price_actual := executed_price;
                 Wallet.eo_size_expected := expected_size;
                 Wallet.eo_size_actual := executed_size;
                 Wallet.eo_asset := asset (config b);
                 Wallet.eo_fee := executed_fee;
                 Wallet.eo_order_id := executed_order_id;
                 Wallet.eo_account_btc_size := account_btc_size;
                 Wallet.eo_account_usdt_size := account_usdt_size;
                 Wallet.eo_fee_rate := fee_rate;
                 Wallet.eo_fill_time_ms := fill_time;
                 Wallet.eo_order_type := order_type |}) b) m in
          _save_runtime_params m
        else m in
      ({| order_status := FILLED; executed_order_id := executed_order_id;
          executed_price := executed_price; executed_size := executed_size;
          executed_side := side; fill_time_ms := fill_time |}, m)
    | st =>
      ({| order_status := st; executed_order_id := 0;
          executed_price := 0; executed_size := 0;
          executed_side := side; fill_time_ms := default_fill_time |}, m)
    end.

Definition _check_wallet_limits (current_price : Q)
    (order_sell_id order_buy_id : Z) (m : Machine W) : Machine W :=
  let thr := price_movement_threshold (config (bot m)) in
  let m :=
    if (order_sell_id =? NOT_ENOUGH_BALANCE)%Z
       && gtb current_price (last_price (bot m) * (1 + thr))
    then _close_open_orders (with_bot (set_last_price current_price) m)
    else m in
  if (order_buy_id =? NOT_ENOUGH_BALANCE)%Z
     && ltb current_price (last_price (bot m) * (1 - thr))
  then _close_open_orders (with_bot (set_last_price current_price) m)
  else m.

(** *** One pass through the body of [_trade_logic] *)

Definition is_filled (r : OrderExecutionResult) : bool :=
  match order_status r with
  | FILLED => true
  | _ => false
  end.

(** [order_status in {FILLED, CANCELED}] *)
Definition order_executed (r : OrderExecutionResult) : bool :=
  match order_status r with
  | FILLED | CANCELED => true
  | _ => false
  end.

(** Lines 178-192: both sides are reconciled, buy first. *)
Definition reconcile_orders (local_ts : string) (m : Machine W)
    : (OrderExecutionResult * OrderExecutionResult) * Machine W :=
  let '(buy_result, m) :=
    _check_order_status (buy_order_id (bot m)) "buy"
      (expected_buy_price (bot m)) (expected_buy_size (bot m)) local_ts m in
  let '(sell_result, m) :=
    _check_order_status (sell_order_id (bot m)) "sell"
      (expected_sell_price (bot m)) (expected_sell_size (bot m)) local_ts m in
  ((buy_result, sell_result), m).

(** Lines 194-201: the list [orders]; fill times are compared as strings. *)
Definition collect_orders (buy_result sell_result : OrderExecutionResult)
    : list OrderExecutionResult :=
  let orders := if order_executed buy_result then [buy_result] else [] in
  if order_executed sell_result then
    if String.ltb (fill_time_ms sell_result) (fill_time_ms buy_result)
    then sell_result :: orders
    else orders ++ [sell_result]
  else orders.

(** Lines 204-206: the body of the [for] loop. *)
Definition apply_order (b : TradingBot) (order : OrderExecutionResult) : TradingBot :=
  if negb (executed_order_id order =? 0)%Z
  then set_last_price (executed_price order)
         (_adjust_order_sizes (executed_side order) b)
  else b.

Definition apply_orders (orders : list OrderExecutionResult) (b : TradingBot)
    : TradingBot :=
  fold_left apply_order orders b.

(** Lines 208-216: close, place and the wallet-limit check. *)
Definition decide_step (current_price : Q) (is_extreme : bool)
    (buy_result sell_result : OrderExecutionResult) (m : Machine W)
    : pyres (Machine W) :=
  try m <~
    (if order_executed buy_result || order_executed sell_result then
       let m := _close_open_orders m in
       if negb is_extreme then
         try placed <~ _set_new_orders current_price m ;;
         let '((sell_id, buy_id), m) := placed in
         Ok (with_bot (set_order_ids sell_id buy_id) m)
       else Ok m
     else if is_extreme then Ok (_close_open_orders m)
     else Ok m) ;;
  Ok (_check_wallet_limits current_price
        (sell_order_id (bot m)) (buy_order_id (bot m)) m).

(** Lines 172-176: both histories are updated; the extreme test runs on
    the momentum history as it was before the candidate is added. *)
Definition update_history (current_price : Q) (current_timestamp : Z)
    (m : Machine W) : pyres (bool * Machine W) :=
  let m := with_bot (_add_price_to_history current_price current_timestamp) m in
  try current_momentum <~
    _calculate_current_momentum (bot m) current_price current_timestamp ;;
  try is_extreme <~
    _is_extreme_momentum (bot m) current_momentum current_timestamp ;;
  Ok (is_extreme,
      with_bot (_add_momentum_to_history current_momentum current_timestamp) m).

(** Lines 172-216, once the price has been fetched and validated. *)
Definition cycle (current_price : Q) (current_timestamp : Z) (local_ts : string)
    (m : Machine W) : pyres (Machine W) :=
  try updated <~ update_history current_price current_timestamp m ;;
  let '(is_extreme, m) := updated in
  let '((buy_result, sell_result), m) := reconcile_orders local_ts m in
  let m := with_bot (apply_orders (collect_orders buy_result sell_result)) m in
  decide_step current_price is_extreme buy_result sell_result m.

(** The body of the [while True] loop: the seconds to sleep and the new
    state.  [current_timestamp] and [local_ts] are [datetime.now()] and its
    formatted text. *)
Definition trade_iteration (current_timestamp : Z) (local_ts : string)
    (m : Machine W) : pyres (Z * Machine W) :=
  let '(current_price, w1) := get_price (asset (config (bot m))) (world m) in
  let m := with_world w1 m in
  match current_price with
  | None => Ok (10%Z, m)
  | Some current_price =>
    if negb (_is_valid_price (bot m) current_price) then Ok (10%Z, m)
    else
      try m <~ cycle current_price current_timestamp local_ts m ;;
      Ok ((60 * price_resolution_minutes (config (bot m)))%Z, m)
  end.

End Bot.

(** ** Start-up: [_on_start] and [__init__] *)

Section Startup.

Context {W : Type} {EX : ExchangeClient W}.

(** [self.exchange_client.get_price(self.asset) or 0.0] stored in
    [last_price]. *)
Definition last_price_from_exchange (m : Machine W) : Machine W :=
  let '(p, w1) := get_price (asset (config (bot m))) (world m) in
  with_bot (set_last_price (or_float p 0)) (with_world w1 m).

Definition _on_start (default_buy_size_btc default_sell_size_btc : Q)
    (m : Machine W) : pyres (Machine W) :=
  match params_file m with
  | Some loaded_parameters =>
    try m <~
      (match loaded_parameters !! "last_price" with
       | Some v => Ok (with_bot (set_last_price (float_of v)) m)
       | None =>
         try _logged <~ self_log_event (bot m) ;;
         Ok (last_price_from_exchange m)
       end) ;;
    let m := with_bot (set_sizes
      (default default_buy_size_btc (float_of <$> loaded_parameters !! "buy_size_btc"))
      (default default_sell_size_btc (float_of <$> loaded_parameters !! "sell_size_btc"))) m in
    Ok (with_bot (set_order_ids
      (default 0%Z (int_of <$> loaded_parameters !! "sell_order_id"))
      (default 0%Z (int_of <$> loaded_parameters !! "buy_order_id"))) m)
  | None =>
    try _logged <~ self_log_event (bot m) ;;
    let m := last_price_from_exchange m in
    let m := with_bot (set_sizes default_buy_size_btc default_sell_size_btc) m in
    Ok (with_bot (set_order_ids 0 0) m)
  end.

(** [TradingBot.__init__] with an exchange client passed in.  [w] is the
    exchange and [file] what [params.json] holds ([None]: no such file).
    The attributes are assigned in the order of the source: [_on_start]
    runs at line 72, [log_event] is bound at line 75, and lines 82-85
    assign the order ids and the sizes. *)
Definition init (cfg : TradingConfig) (w : W) (file : option (gmap string jnum))
    : pyres (Machine W) :=
  let '(account_btc_size, w) := get_account_balance "BTC" w in
  let '(account_usdt_size, w) := get_account_balance "USDT" w in
  let '(minimum, w) := get_minimum_size (asset cfg) w in
  let min_size := or_float minimum (1 # 100000) in
  let order_start_size := inject_Z (order_size_factor cfg) * min_size in
  let b :=
    {| config := cfg; expected_sell_size := 0; expected_buy_size := 0;
       expected_buy_price := 0; expected_sell_price := 0; last_price := 0;
       min_size := min_size; order_start_size := order_start_size;
       wallet := Wallet.init account_btc_size account_usdt_size
                   (maker_fee_rate cfg) (taker_fee_rate cfg) Wallet.MAKER;
       usdt_size := 0; log_event_bound := false;
       price_history := []; momentum_history := [];
       buy_order_id := 0; sell_order_id := 0;
       buy_size_btc := 0; sell_size_btc := 0 |} in
  try m <~ _on_start order_start_size order_start_size
             {| world := w; bot := b; params_file := file; trace := [] |} ;;
  Ok (with_bot (fun b =>
    {| config := config b; expected_sell_size := expected_sell_size b;
       expected_buy_size := expected_buy_size b;
       expected_buy_price := expected_buy_price b;
       expected_sell_price := expected_sell_price b; last_price := last_price b;
       min_size := min_size; order_start_size := order_start_size;
       wallet := wallet b; usdt_size := account_usdt_size;
       log_event_bound := true;
       price_history := []; momentum_history := [];
       buy_order_id := 0; sell_order_id := 0;
       buy_size_btc := order_start_size; sell_size_btc := order_start_size |}) m).

(** [_on_close] *)
Definition _on_close (m : Machine W) : Machine W := _save_runtime_params m.

End Startup.

(** ** A scripted exchange for closed examples

    The world is the number of orders placed so far.  Prices, balances and
    order reports are fixed per instance. *)

Module Script.

Record script : Type := {
  s_price : option Q;
  s_minimum_size : option Q;
  s_btc : Q;
  s_usdt : Q;
  s_status : Z -> string * Q * Q * Q;
  s_details : Z -> option (string * option Q * string)
}.

Definition client (s : script) : ExchangeClient nat := {|
  get_price := fun _ w => (s_price s, w);
  get_minimum_size := fun _ w => (s_minimum_size s, w);
  place_order := fun _ _ _ w => (Some (Z.of_nat (S w) + 1000)%Z, S w);
  check_order_status := fun id w => (s_status s id, w);
  get_order_fill_details := fun id w => (s_details s id, w);
  get_account_balance := fun a w =>
    (if String.eqb a "BTC" then s_btc s else s_usdt s, w);
  close_all_orders := fun w => w
|}.

End Script.

(** The two sides as the loop names them. *)
Inductive Side : Set := Buy | Sell.

Definition side_name (s : Side) : string :=
  match s with
  | Buy => "buy"
  | Sell => "sell"
  end.

(** A sequence of fills applied through the size-adjustment operation. *)
Definition adjust_all (fills : list Side) (b : TradingBot) : TradingBot :=
  fold_left (fun b s => _adjust_order_sizes (side_name s) b) fills b.

(** The rate the specification names: the one of the order type the ledger
    was built with. *)
Definition spec_commission_rate (w : Wallet.WalletManager) : Q :=
  match Wallet.order_type w with
  | Wallet.MAKER => Wallet.commission_rate_maker w
  | Wallet.TAKER => Wallet.commission_rate_taker w
  end.

(** ** Concrete inputs for the closed examples *)

Module Examples.

(** A ledger as the bot builds it: default fee rates, maker order type,
    1000.9 of the quote asset and 1 of the base asset. *)
Definition ledger : Wallet.WalletManager :=
  Wallet.init 1 (10009 # 10) (maker_fee_rate DEFAULT_TRADING_CONFIG)
              (taker_fee_rate DEFAULT_TRADING_CONFIG) Wallet.MAKER.

(** A bot with the default configuration, a minimum size of 0.00001 (so a
    start size of 0.00065), anchored at a last price of 100. *)
Definition start_bot : TradingBot := {|
  config := DEFAULT_TRADING_CONFIG;
  expected_sell_size := 0; expected_buy_size := 0;
  expected_buy_price := 0; expected_sell_price := 0;
  last_price := 100;
  min_size := 1 # 100000;
  order_start_size := 65 # 100000;
  wallet := ledger;
  usdt_size := 10009 # 10;
  log_event_bound := true;
  price_history := []; momentum_history := [];
  buy_order_id := 0; sell_order_id := 0;
  buy_size_btc := 65 # 100000; sell_size_btc := 65 # 100000
|}.

(** The same bot with a given price history. *)
Definition bot_with_prices (h : list PricePoint) : TradingBot :=
  set_price_history h start_bot.

(** Ten minutes apart: 100, then 101. *)
Definition two_prices : list PricePoint :=
  [{| pp_timestamp := 0; pp_price := 100 |};
   {| pp_timestamp := minutes 10; pp_price := 101 |}].

(** The same bot with 59 momentum samples of 0, one per minute. *)
Definition flat_momentum_bot : TradingBot :=
  set_momentum_history
    (List.map (fun i => {| mp_timestamp := minutes (Z.of_nat i); mp_momentum := 0 |})
              (seq 1 59))
    start_bot.

(** An exchange that quotes 100 and reports every order as still live. *)
Definition calm : Script.script := {|
  Script.s_price := Some 100;
  Script.s_minimum_size := Some (1 # 100000);
  Script.s_btc := 1;
  Script.s_usdt := 10009 # 10;
  Script.s_status := fun _ => ("live", 0, 0, 0);
  Script.s_details := fun _ => None
|}.

(** An exchange on which order 1001 (the buy) was filled at 99 five
    seconds past the hour and order 1002 (the sell) at 101 three seconds
    past the hour. *)
Definition both_filled : Script.script := {|
  Script.s_price := Some 100;
  Script.s_minimum_size := Some (1 # 100000);
  Script.s_btc := 1;
  Script.s_usdt := 10009 # 10;
  Script.s_status := fun id =>
    if (id =? 1001)%Z then ("filled", 99, 65 # 100000, 0)
    else if (id =? 1002)%Z then ("filled", 101, 65 # 100000, 0)
    else ("live", 0, 0, 0);
  Script.s_details := fun id =>
    if (id =? 1001)%Z then Some ("Maker", Some (-8 # 10000), "2024-05-01 10:00:05 UTC")
    else if (id =? 1002)%Z then Some ("Maker", Some (-8 # 10000), "2024-05-01 10:00:03 UTC")
    else None
|}.

(** A machine around a bot: a fresh exchange, no parameters file, an empty
    trace. *)
Definition machine_of (b : TradingBot) : Machine nat :=
  {| world := 0%nat; bot := b; params_file := None; trace := [] |}.

(** The bot with a resting pair: buy order 1001 and sell order 1002. *)
Definition resting_bot : TradingBot := set_order_ids 1002 1001 start_bot.

(** A parameters file as the bot writes it, and the same with the
    [last_price] entry removed. *)
Definition saved_file : gmap string jnum :=
  runtime_parameters (set_sizes (13 # 10000) (13 # 20000) resting_bot).

Definition file_without_last_price : gmap string jnum :=
  delete "last_price" saved_file.

(** A first sample at time 0 with the market at 100: the histories of a
    machine after lines 172-176.  The momentum is 0 and not extreme. *)
Definition after_first_sample (m : Machine nat) : Machine nat :=
  with_bot (fun b => _add_momentum_to_history 0 0 (_add_price_to_history 100 0 b)) m.

Definition local_ts_example : string := "2024-05-01 10:01:00".

(** A configuration with a one-minute lookback, so that two samples are
    enough for the extreme test. *)
Definition quick_config : TradingConfig := {|
  asset := "BTC-USDT";
  price_movement_threshold := 1 # 100;
  price_resolution_minutes := 1;
  momentum_lookback_window_minutes := 1;
  momentum_std_threshold := 1;
  order_size_factor := 65;
  max_order_size_multiplier := 6;
  maker_fee_rate := 8 # 10000;
  taker_fee_rate := 1 # 1000;
  price_validation_threshold := 12 # 10;
  price_adjustment_offset := 1 # 1000
|}.

(** A bot on [quick_config] with one momentum sample of 0 at time 0. *)
Definition quick_bot : TradingBot := {|
  config := quick_config;
  expected_sell_size := 0; expected_buy_size := 0;
  expected_buy_price := 0; expected_sell_price := 0;
  last_price := 100;
  min_size := 1 # 100000;
  order_start_size := 65 # 100000;
  wallet := ledger;
  usdt_size := 10009 # 10;
  log_event_bound := true;
  price_history := [];
  momentum_history := [{| mp_timestamp := 0; mp_momentum := 0 |}];
  buy_order_id := 0; sell_order_id := 0;
  buy_size_btc := 65 # 100000; sell_size_btc := 65 # 100000
|}.

(** An entry of the ledger for order 1001. *)
Definition entry_1001 : Wallet.ExecutedOrder := {|
  Wallet.eo_local_ts := "2024-05-01 10:01:00";
  Wallet.eo_side := "buy";
  Wallet.eo_price_expected := 99;
  Wallet.eo_price_actual := 99;
  Wallet.eo_size_expected := 65 # 100000;
  Wallet.eo_size_actual := 65 # 100000;
  Wallet.eo_asset := "BTC-USDT";
  Wallet.eo_fee := 0;
  Wallet.eo_order_id := 1001;
  Wallet.eo_account_btc_size := 100065 # 100000;
  Wallet.eo_account_usdt_size := 1000;
  Wallet.eo_fee_rate := 0;
  Wallet.eo_fill_time_ms := "2024-05-01 10:00:05 UTC";
  Wallet.eo_order_type := "Maker"
|}.

(** The bot with nothing of the base asset in its ledger. *)
Definition bot_without_base : TradingBot :=
  set_wallet
    (Wallet.init 0 (10009 # 10) (maker_fee_rate DEFAULT_TRADING_CONFIG)
                 (taker_fee_rate DEFAULT_TRADING_CONFIG) Wallet.MAKER)
    start_bot.

(** A bot whose configuration has a price resolution of 0 minutes. *)
Definition bot_without_resolution : TradingBot := {|
  config := {| asset := "BTC-USDT";
               price_movement_threshold := 1 # 100;
               price_resolution_minutes := 0;
               momentum_lookback_window_minutes := 30;
               momentum_std_threshold := 1;
               order_size_factor := 65;
               max_order_size_multiplier := 6;
               maker_fee_rate := 8 # 10000;
               taker_fee_rate := 1 # 1000;
               price_validation_threshold := 12 # 10;
               price_adjustment_offset := 1 # 1000 |};
  expected_sell_size := 0; expected_buy_size := 0;
  expected_buy_price := 0; expected_sell_price := 0;
  last_price := 100;
  min_size := 1 # 100000;
  order_start_size := 65 # 100000;
  wallet := ledger;
  usdt_size := 10009 # 10;
  log_event_bound := true;
  price_history := []; momentum_history := [];
  buy_order_id := 0; sell_order_id := 0;
  buy_size_btc := 65 # 100000; sell_size_btc := 65 # 100000
|}.

End Examples.

(** ** Vocabulary of the statements *)

(** A point lies in the half-open lookback window
    [[current - lookback, current)]. *)
Definition in_lookback_window (b : TradingBot) (current_timestamp : Z)
    (p : PricePoint) : Prop :=
  (current_timestamp - minutes (momentum_lookback_window_minutes (config b))
     <= pp_timestamp p)%Z
  /\ (pp_timestamp p < current_timestamp)%Z.

(** The history is in the order of its timestamps, as the loop appends it. *)
Definition chronological (h : list PricePoint) : Prop :=
  StronglySorted (fun p q => (pp_timestamp p <= pp_timestamp q)%Z) h.


(** The five attributes that [_save_runtime_params] writes agree in two
    bot states. *)
Definition same_runtime_params (b b' : TradingBot) : Prop :=
  last_price b' = last_price b
  /\ buy_size_btc b' = buy_size_btc b
  /\ sell_size_btc b' = sell_size_btc b
  /\ buy_order_id b' = buy_order_id b
  /\ sell_order_id b' = sell_order_id b.


(** No event of a trace writes the parameters file. *)
Definition no_save (t : list event) : Prop :=
  forall q, ~ In (EvSaveParams q) t.

(** Every write of the parameters file in a trace writes [p]. *)
Definition saves_only (p : gmap string jnum) (t : list event) : Prop :=
  forall q, In (EvSaveParams q) t -> q = p.


(** The result reported for a side that holds no order. *)
Definition no_order_result : OrderExecutionResult :=
  {| order_status := CANCELED; executed_order_id := 0;
     executed_price := 0; executed_size := 0; executed_side := "";
     fill_time_ms := "2111-01-01 00:00:00 UTC" |}.


(** ** Clients/okx_client.py: the parts the bot's calls go through *)

Module OKX.

(** [config.ExchangeConfig] *)
Record ExchangeConfig : Type := {
  base_url : string;
  api_prefix : string;
  initial_ban_sleep_seconds : Z;
  request_timeout_seconds : Z;
  max_retries : Z;
  backoff_factor : Q
}.

Definition DEFAULT_EXCHANGE_CONFIG : ExchangeConfig := {|
  base_url := "https://www.okx.com";
  api_prefix := "/api/v5";
  initial_ban_sleep_seconds := 60;
  request_timeout_seconds := 10;
  max_retries := 5;
  backoff_factor := 1 # 2
|}.

(** The dictionary that [APIClient.send_request] returns: the decoded
    body with its ["data"] entry when there is one, or [{"error": text}]
    after a transport failure. *)
Record response (D : Type) : Type := {
  resp_error : option string;
  resp_data : option D
}.

Arguments resp_error {D} _.
Arguments resp_data {D} _.

(** The attributes of [OKXClient] that [_send_request] reads and writes. *)
Record client : Type := {
  client_config : ExchangeConfig;
  ban_sleep_time : Z
}.

(** [pat in s] *)
Definition contains (pat s : string) : bool :=
  match String.index 0 pat s with
  | Some _ => true
  | None => false
  end.

(** The test of line 94 on a response. *)
Definition is_ban {D : Type} (r : response D) : bool :=
  match resp_error r with
  | Some msg => contains "Max retries exceeded" msg
  | None => false
  end.

(** [_send_request], lines 94-100, on the response of the transport: the
    seconds slept and the client afterwards.  The response itself is
    handed on unchanged. *)
Definition _send_request {D : Type} (r : response D) (c : client) : Z * client :=
  if is_ban r then
    (ban_sleep_time c,
     {| client_config := client_config c;
        ban_sleep_time := (2 * ban_sleep_time c)%Z |})
  else
    (0%Z,
     {| client_config := client_config c;
        ban_sleep_time := initial_ban_sleep_seconds (client_config c) |}).

(** A run of requests: the seconds slept at each one, and the client at
    the end. *)
Fixpoint send_requests {D : Type} (rs : list (response D)) (c : client)
    : list Z * client :=
  match rs with
  | [] => ([], c)
  | r :: rs' =>
    let '(slept, c1) := _send_request r c in
    let '(rest, c2) := send_requests rs' c1 in
    (slept :: rest, c2)
  end.

(** One row of the ["data"] list of [/trade/order].  The numbers arrive as
    text; [avgPx] is [None] when its text is not a number (the exchange
    sends an empty text for an order without fills). *)
Record order_row : Type := {
  row_state : string;
  row_accFillSz : Q;
  row_fee : Q;
  row_avgPx : option Q
}.

(** [check_order_status], lines 137-144, on the response.  [None] stands
    for the ValueError of [float] on a text that is not a number. *)
Definition check_order_status (r : response (list order_row))
    : option (string * Q * Q * Q) :=
  match resp_data r with
  | Some (row :: _) =>
    let response_size := row_accFillSz row in
    let fee := Qabs (row_fee row) in
    if gtb response_size 0 then
      match row_avgPx row with
      | Some response_price => Some (row_state row, response_price, response_size, fee)
      | None => None
      end
    else Some (row_state row, 0, response_size, fee)
  | _ => Some ("failed", 0, 0, 0)
  end.

End OKX.

(** ** Logic/trading_visualizer.py: the profit-and-loss series

    The two data frames are lists of rows in file order; [None] for the
    orders is a frame that could not be read. *)

Module Visualizer.

Record price_row : Type := { pr_timestamp : Z; pr_price : Q }.

Record order_row : Type := {
  or_local_ts : Z;
  or_side : string;
  or_size_actual : Q;
  or_price_actual : Q;
  or_fee : option Q;
  or_account_btc_size : Q;
  or_account_usdt_size : Q
}.

(** Lines 207-212: the holdings [(usdt, btc)] before the first order,
    obtained by undoing it on the balances it recorded. *)
Definition initial_holdings (first_order : order_row) : Q * Q :=
  if String.eqb (or_side first_order) "buy" then
    (or_account_usdt_size first_order
       + or_size_actual first_order * or_price_actual first_order,
     or_account_btc_size first_order - or_size_actual first_order)
  else
    (or_account_usdt_size first_order
       - or_size_actual first_order * or_price_actual first_order,
     or_account_btc_size first_order + or_size_actual first_order).

(** Lines 231-242: one order applied to the holdings; [order.get("fee", 0)]. *)
Definition replay_order (holdings : Q * Q) (order : order_row) : Q * Q :=
  let '(current_usdt, current_btc) := holdings in
  let size := or_size_actual order in
  let price := or_price_actual order in
  let fee := match or_fee order with Some f => f | None => 0 end in
  if String.eqb (or_side order) "buy" then
    (current_usdt - size * price, current_btc + (size - fee))
  else if String.eqb (or_side order) "sell" then
    (current_usdt + (size * price - fee), current_btc - size)
  else (current_usdt, current_btc).

(** Lines 230-244: the [while] loop; the orders not yet replayed stand for
    [order_idx]. *)
Fixpoint replay_due (current_time : Z) (holdings : Q * Q)
    (pending : list order_row) : (Q * Q) * list order_row :=
  match pending with
  | order :: rest =>
    if (or_local_ts order <=? current_time)%Z
    then replay_due current_time (replay_order holdings order) rest
    else (holdings, pending)
  | [] => (holdings, [])
  end.

(** Lines 225-249: the [for] loop over the price rows. *)
Fixpoint pnl_loop (initial_portfolio_value : Q) (holdings : Q * Q)
    (pending : list order_row) (prices : list price_row) : list Q :=
  match prices with
  | [] => []
  | row :: rows =>
    let '(holdings', pending') :=
      replay_due (pr_timestamp row) holdings pending in
    let current_portfolio_value :=
      fst holdings' + snd holdings' * pr_price row in
    (current_portfolio_value - initial_portfolio_value)
      :: pnl_loop initial_portfolio_value holdings' pending' rows
  end.

(** [calculate_pnl_from_orders]; [None] stands for the IndexError of
    [df_prices.iloc[0]] on an empty price frame. *)
Definition calculate_pnl_from_orders (prices : list price_row)
    (orders : option (list order_row)) : option (list Q) :=
  match orders with
  | None | Some [] => Some (repeat 0 (length prices))
  | Some (first_order :: later_orders) =>
    let '(initial_usdt, initial_btc) := initial_holdings first_order in
    match prices with
    | [] => None
    | first_row :: _ =>
      let initial_portfolio_value :=
        initial_usdt + initial_btc * pr_price first_row in
      Some (pnl_loop initial_portfolio_value (initial_usdt, initial_btc)
              (first_order :: later_orders) prices)
    end
  end.

End Visualizer.


Module PnlExamples.

(** Three price rows a minute apart and one buy recorded after the
    second. *)
Definition pnl_prices : list Visualizer.price_row :=
  [{| Visualizer.pr_timestamp := 0; Visualizer.pr_price := 100 |};
   {| Visualizer.pr_timestamp := minutes 1; Visualizer.pr_price := 101 |};
   {| Visualizer.pr_timestamp := minutes 2; Visualizer.pr_price := 102 |}].

Definition pnl_buy (at_time : Z) : Visualizer.order_row :=
  {| Visualizer.or_local_ts := at_time;
     Visualizer.or_side := "buy";
     Visualizer.or_size_actual := 1;
     Visualizer.or_price_actual := 101;
     Visualizer.or_fee := None;
     Visualizer.or_account_btc_size := 3;
     Visualizer.or_account_usdt_size := 899 |}.

End PnlExamples.

(** ** Logic/wallet.py: the affordability check on binary64

    The check multiplies and adds Python floats, so each product and sum
    is rounded to the nearest binary64 number before the comparison.  Here
    the attributes that the check reads are primitive binary64 floats and
    the operations are the IEEE ones, in the order in which Python
    evaluates line 50 and line 60. *)

Module Wallet64.

Record WalletManager : Type := {
  current_btc : float;
  current_usdt : float;
  commission_rate_maker : float;
  commission_rate_taker : float;
  order_type : Wallet.OrderType;
  commission_rate : float
}.

(** [WalletManager.__init__], the attributes above. *)
Definition init (initial_btc initial_usdt rate_maker rate_taker : float)
    (ot : Wallet.OrderType) : WalletManager := {|
  current_btc := initial_btc;
  current_usdt := initial_usdt;
  commission_rate_maker := rate_maker;
  commission_rate_taker := rate_taker;
  order_type := ot;
  commission_rate := rate_taker
|}.

Definition _check_buy_order (w : WalletManager) (price size_btc : float) : bool :=
  let total_cost := (size_btc * price * (1 + commission_rate w))%float in
  if PrimFloat.ltb (current_usdt w) total_cost then false else true.

Definition _check_sell_order (w : WalletManager) (price size_btc : float) : bool :=
  if PrimFloat.ltb (current_btc w) (size_btc * (1 + commission_rate w))%float
  then false else true.

Definition check_order_size (w : WalletManager) (price size_btc : float)
    (side : string) : pyres float :=
  if String.eqb side "buy" then
    if negb (_check_buy_order w price size_btc) then Ok 0%float else Ok size_btc
  else if String.eqb side "sell" then
    if negb (_check_sell_order w price size_btc) then Ok 0%float else Ok size_btc
  else Raise SystemExit.

(** The rational number that a finite binary64 float stands for, in
    lowest terms. *)
Definition exact (f : float) : option Q :=
  match Prim2SF f with
  | S754_zero _ => Some 0
  | S754_finite negative mantissa exponent =>
    let magnitude :=
      match exponent with
      | Zneg p => Zpos mantissa # (2 ^ p)
      | _ => inject_Z (Zpos mantissa * 2 ^ exponent)
      end in
    Some (Qred (if negative then - magnitude else magnitude))
  | _ => None
  end.

(** The ledger of the bot with a quote balance one unit in the last place
    under 1001 and a base balance of the float nearest to 1.001; the taker
    rate is the float nearest to 0.001. *)
Definition tight_ledger : WalletManager :=
  init 0x1.004189374bc6ap+0 0x1.f47ffffffffffp+9
       0x1.a36e2eb1c432dp-11 0x1.0624dd2f1a9fcp-10 Wallet.MAKER.

End Wallet64.


(** * Properties *)

(** ** Comparisons *)

Lemma ltb_lt (a b : Q) : ltb a b = true <-> a < b.
Proof.
  unfold ltb. rewrite negb_true_iff.
  destruct (Qle_bool b a) eqn:E.
  - apply Qle_bool_iff in E. split; [discriminate | intros H; lra].
  - split; [intros _ | reflexivity].
    destruct (Qlt_le_dec a b) as [H | H]; [exact H |].
    apply Qle_bool_iff in H. congruence.
Qed.

Lemma ltb_ge (a b : Q) : ltb a b = false <-> b <= a.
Proof.
  unfold ltb. rewrite negb_false_iff. apply Qle_bool_iff.
Qed.

Lemma gtb_gt (a b : Q) : gtb a b = true <-> b < a.
Proof. apply ltb_lt. Qed.

Lemma geb_ge (a b : Q) : geb a b = true <-> b <= a.
Proof. apply Qle_bool_iff. Qed.

Lemma gtb_le (a b : Q) : gtb a b = false <-> a <= b.
Proof. apply ltb_ge. Qed.

Lemma py_min_Qmin (a b : Q) : py_min a b == Qmin a b.
Proof.
  unfold py_min. destruct (ltb b a) eqn:E.
  - apply ltb_lt in E. rewrite Q.min_r; lra.
  - apply ltb_ge in E. rewrite Q.min_l; lra.
Qed.

Lemma py_min_le_l (a b : Q) : py_min a b <= a.
Proof.
  unfold py_min. destruct (ltb b a) eqn:E.
  - apply ltb_lt in E. lra.
  - lra.
Qed.

Lemma py_min_le_r (a b : Q) : py_min a b <= b.
Proof.
  unfold py_min. destruct (ltb b a) eqn:E.
  - lra.
  - apply ltb_ge in E. lra.
Qed.

(** ** The wallet ledger *)

Module WalletFacts.
Import Wallet.

Lemma check_buy_true (w : WalletManager) (price size_btc : Q) :
  _check_buy_order w price size_btc = true <->
  size_btc * price * (1 + commission_rate w) <= current_usdt w.
Proof.
  unfold _check_buy_order.
  destruct (ltb _ _) eqn:E.
  - apply ltb_lt in E. split; [discriminate | lra].
  - apply ltb_ge in E. tauto.
Qed.

Lemma check_sell_true (w : WalletManager) (price size_btc : Q) :
  _check_sell_order w price size_btc = true <->
  size_btc * (1 + commission_rate w) <= current_btc w.
Proof.
  unfold _check_sell_order.
  destruct (ltb _ _) eqn:E.
  - apply ltb_lt in E. split; [discriminate | lra].
  - apply ltb_ge in E. tauto.
Qed.

Lemma check_order_size_buy (w : WalletManager) (price size_btc : Q) :
  check_order_size w price size_btc "buy" =
  Ok (if _check_buy_order w price size_btc then size_btc else 0).
Proof.
  unfold check_order_size. simpl.
  destruct (_check_buy_order w price size_btc); reflexivity.
Qed.

Lemma check_order_size_sell (w : WalletManager) (price size_btc : Q) :
  check_order_size w price size_btc "sell" =
  Ok (if _check_sell_order w price size_btc then size_btc else 0).
Proof.
  unfold check_order_size. simpl.
  destruct (_check_sell_order w price size_btc); reflexivity.
Qed.

(** The check on the rational ledger, where no product or sum is rounded:
    a buy is answered with 0 when the quote balance is below
    [size * price * (1 + commission_rate)] and with the requested size
    otherwise; a sell likewise against the base balance and
    [size * (1 + commission_rate)].  For a non-zero request the answer is 0
    exactly in the rejected case. *)
Theorem check_order_size_spec (w : WalletManager) (price size_btc : Q) :
  let buy_cost := size_btc * price * (1 + commission_rate w) in
  let sell_need := size_btc * (1 + commission_rate w) in
  (current_usdt w < buy_cost -> check_order_size w price size_btc "buy" = Ok 0)
  /\ (~ current_usdt w < buy_cost ->
      check_order_size w price size_btc "buy" = Ok size_btc)
  /\ (current_btc w < sell_need -> check_order_size w price size_btc "sell" = Ok 0)
  /\ (~ current_btc w < sell_need ->
      check_order_size w price size_btc "sell" = Ok size_btc)
  /\ (~ size_btc == 0 ->
      forall r, check_order_size w price size_btc "buy" = Ok r ->
                (r == 0 <-> current_usdt w < buy_cost))
  /\ (~ size_btc == 0 ->
      forall r, check_order_size w price size_btc "sell" = Ok r ->
                (r == 0 <-> current_btc w < sell_need)).
Proof.
  cbv zeta.
  rewrite check_order_size_buy, check_order_size_sell.
  pose proof (check_buy_true w price size_btc) as Hb.
  pose proof (check_sell_true w price size_btc) as Hs.
  destruct (_check_buy_order w price size_btc);
  destruct (_check_sell_order w price size_btc);
  repeat split; intros;
  repeat match goal with
  | H : Ok _ = Ok _ |- _ => injection H as H; subst
  | H : true = true <-> _ |- _ => apply proj1 in H; specialize (H eq_refl)
  | H : false = true <-> ?P |- _ =>
      assert (~ P) by (intros HP; apply H in HP; discriminate); clear H
  end; try reflexivity; try lra.
Qed.

End WalletFacts.

Module WalletExamples.
Import Wallet WalletFacts Examples.

Lemma check_order_size_spec_witness :
  check_order_size ledger 1000 1 "buy" = Ok 0
  /\ check_order_size ledger 1000 1 "sell" = Ok 0
  /\ check_order_size ledger 1000 (1 # 2) "buy" = Ok (1 # 2)
  /\ check_order_size ledger 1000 (1 # 2) "sell" = Ok (1 # 2)
  /\ ((1 # 2) == 0 <-> current_usdt ledger < (1 # 2) * 1000 * (1 + commission_rate ledger))
  /\ ((1 # 2) == 0 <-> current_btc ledger < (1 # 2) * (1 + commission_rate ledger)).
Proof.
  destruct (check_order_size_spec ledger 1000 1) as (A & _ & C & _).
  destruct (check_order_size_spec ledger 1000 (1 # 2)) as (_ & B & _ & D & E & F).
  split; [apply A; vm_compute; reflexivity |].
  split; [apply C; vm_compute; reflexivity |].
  split; [apply B; vm_compute; discriminate |].
  split; [apply D; vm_compute; discriminate |].
  split.
  - apply E; [vm_compute; discriminate |].
    apply B. vm_compute. discriminate.
  - apply F; [vm_compute; discriminate |].
    apply D. vm_compute. discriminate.
Defined.

(** C8 as stated fails: a ledger built with the maker order type rejects a
    buy that the maker rate would let through.  1000.9 covers
    [1 * 1000 * (1 + 0.0008)] but not [1 * 1000 * (1 + 0.001)]. *)
Lemma commission_rate_follows_order_type_counterexample :
  order_type ledger = MAKER
  /\ 1 * 1000 * (1 + spec_commission_rate ledger) <= current_usdt ledger
  /\ check_order_size ledger 1000 1 "buy" = Ok 0
  /\ ~ commission_rate ledger == spec_commission_rate ledger.
Proof.
  split; [reflexivity |].
  split; [vm_compute; discriminate |].
  split; [reflexivity |].
  vm_compute. discriminate.
Qed.

End WalletExamples.

Module WalletRate.
Import Wallet WalletFacts.

Lemma run_call_rate (w : WalletManager) (c : call) :
  commission_rate (run_call w c) = commission_rate w.
Proof. destruct c; reflexivity. Qed.

Lemma run_calls_rate (cs : list call) (w : WalletManager) :
  commission_rate (run_calls w cs) = commission_rate w.
Proof.
  revert w. induction cs as [| c cs IH]; intros w; simpl.
  - reflexivity.
  - unfold run_calls in *. simpl. rewrite IH. apply run_call_rate.
Qed.

(** C8, amended.  Whatever order type and rates the ledger is built with,
    and after any sequence of calls on it, the rate of the affordability
    checks is the taker rate given at construction: no call changes it, and
    the buy and the sell check are decided with it. *)
Theorem commission_rate_is_taker_rate
    (initial_btc initial_usdt rate_maker rate_taker : Q) (ot : OrderType)
    (cs : list call) (price size_btc : Q) :
  let w := run_calls (init initial_btc initial_usdt rate_maker rate_taker ot) cs in
  commission_rate w = rate_taker
  /\ (_check_buy_order w price size_btc = true <->
      size_btc * price * (1 + rate_taker) <= current_usdt w)
  /\ (_check_sell_order w price size_btc = true <->
      size_btc * (1 + rate_taker) <= current_btc w).
Proof.
  intros w.
  assert (Hr : commission_rate w = rate_taker).
  { unfold w. rewrite run_calls_rate. reflexivity. }
  split; [exact Hr |].
  rewrite <- Hr. split; [apply check_buy_true | apply check_sell_true].
Qed.

End WalletRate.

(** ** Ratchet sizing *)

Module Sizing.

Lemma adjust_keeps_cap (s : string) (b : TradingBot) :
  size_cap (_adjust_order_sizes s b) = size_cap b
  /\ order_start_size (_adjust_order_sizes s b) = order_start_size b.
Proof.
  unfold _adjust_order_sizes.
  destruct (String.eqb s "buy"); [split; reflexivity |].
  destruct (String.eqb s "sell"); split; reflexivity.
Qed.

(** One fill leaves both sizes under the ceiling as soon as the start size
    is under it, whatever the sizes were before. *)
Lemma adjust_within_cap (s : Side) (b : TradingBot) :
  order_start_size b <= size_cap b ->
  buy_size_btc (_adjust_order_sizes (side_name s) b) <= size_cap b
  /\ sell_size_btc (_adjust_order_sizes (side_name s) b) <= size_cap b.
Proof.
  intros Hstart. destruct s; simpl; split;
    solve [apply py_min_le_l | exact Hstart].
Qed.

Lemma adjust_all_keeps_cap (fills : list Side) (b : TradingBot) :
  size_cap (adjust_all fills b) = size_cap b
  /\ order_start_size (adjust_all fills b) = order_start_size b.
Proof.
  revert b. induction fills as [| s fills IH]; intros b; simpl.
  - split; reflexivity.
  - destruct (IH (_adjust_order_sizes (side_name s) b)) as [H1 H2].
    destruct (adjust_keeps_cap (side_name s) b) as [H3 H4].
    unfold adjust_all in *. simpl. rewrite H1, H2. split; assumption.
Qed.

Lemma adjust_all_within_cap (fills : list Side) (b : TradingBot) :
  order_start_size b <= size_cap b ->
  buy_size_btc b <= size_cap b ->
  sell_size_btc b <= size_cap b ->
  buy_size_btc (adjust_all fills b) <= size_cap b
  /\ sell_size_btc (adjust_all fills b) <= size_cap b.
Proof.
  revert b. induction fills as [| s fills IH]; intros b Hstart Hbuy Hsell.
  - simpl. split; assumption.
  - destruct (adjust_keeps_cap (side_name s) b) as [Hcap Hst].
    destruct (adjust_within_cap s b Hstart) as [Hb Hs].
    change (adjust_all (s :: fills) b)
      with (adjust_all fills (_adjust_order_sizes (side_name s) b)).
    rewrite <- Hcap. apply IH; rewrite ?Hcap, ?Hst; assumption.
Qed.

(** C1.  A buy fill doubles the buy size, capped at
    [max_order_size_multiplier * order_start_size], and resets the sell
    size to [order_start_size]; a sell fill does the same with the sides
    swapped.  When the start size itself is under the ceiling, the sizes of
    a bot that starts under the ceiling stay under it after any sequence
    of fills. *)
Theorem adjust_order_sizes_ratchet (b : TradingBot) :
  buy_size_btc (_adjust_order_sizes "buy" b)
    == Qmin (size_cap b) (2 * buy_size_btc b)
  /\ sell_size_btc (_adjust_order_sizes "buy" b) = order_start_size b
  /\ sell_size_btc (_adjust_order_sizes "sell" b)
    == Qmin (size_cap b) (2 * sell_size_btc b)
  /\ buy_size_btc (_adjust_order_sizes "sell" b) = order_start_size b
  /\ (order_start_size b <= size_cap b ->
      buy_size_btc b <= size_cap b ->
      sell_size_btc b <= size_cap b ->
      forall fills : list Side,
        buy_size_btc (adjust_all fills b) <= size_cap b
        /\ sell_size_btc (adjust_all fills b) <= size_cap b).
Proof.
  split; [| split; [| split; [| split]]].
  - simpl. rewrite py_min_Qmin.
    apply Q.min_compat; [reflexivity | ring].
  - reflexivity.
  - simpl. rewrite py_min_Qmin.
    apply Q.min_compat; [reflexivity | ring].
  - reflexivity.
  - intros Hstart Hbuy Hsell fills.
    apply adjust_all_within_cap; assumption.
Qed.

Lemma adjust_order_sizes_ratchet_witness :
  buy_size_btc
    (adjust_all [Buy; Buy; Buy; Buy; Sell; Buy] Examples.start_bot)
    <= size_cap Examples.start_bot
  /\ sell_size_btc
    (adjust_all [Buy; Buy; Buy; Buy; Sell; Buy] Examples.start_bot)
    <= size_cap Examples.start_bot.
Proof.
  destruct (adjust_order_sizes_ratchet Examples.start_bot) as (_ & _ & _ & _ & H).
  apply H; vm_compute; discriminate.
Defined.

(** Repeated buy fills from the start size 0.00065: 0.0013, 0.0026 and then
    the ceiling 0.0039; a sell fill brings the buy size back to the start. *)
Example buy_fills_then_sell :
  List.map (fun fills => Qred (buy_size_btc (adjust_all fills Examples.start_bot)))
           [[Buy]; [Buy; Buy]; [Buy; Buy; Buy]; [Buy; Buy; Buy; Buy];
            [Buy; Buy; Buy; Buy; Sell]]
  = [13 # 10000; 13 # 5000; 39 # 10000; 39 # 10000; 13 # 20000].
Proof. vm_compute. reflexivity. Qed.

End Sizing.

(** ** Momentum *)

Module Momentum.

Lemma recent_data_In (b : TradingBot) (ts : Z) (p : PricePoint) :
  In p (recent_data b ts) <-> In p (price_history b) /\ in_lookback_window b ts p.
Proof.
  unfold recent_data, in_lookback_window. rewrite filter_In.
  rewrite andb_true_iff, Z.leb_le, Z.ltb_lt. tauto.
Qed.

Lemma recent_data_empty (b : TradingBot) (ts : Z) :
  recent_data b ts = [] <->
  (forall p, In p (price_history b) -> ~ in_lookback_window b ts p).
Proof.
  split.
  - intros E p Hin Hw.
    assert (H : In p (recent_data b ts)) by (apply recent_data_In; tauto).
    rewrite E in H. exact H.
  - intros H. destruct (recent_data b ts) as [| p rest] eqn:E; [reflexivity |].
    assert (Hp : In p (recent_data b ts)) by (rewrite E; left; reflexivity).
    apply recent_data_In in Hp. destruct Hp as [Hin Hw].
    exfalso. exact (H p Hin Hw).
Qed.

(** The head of a filtered sorted list is below everything the filter
    keeps. *)
Lemma filter_head_least {A : Type} (R : A -> A -> Prop) (f : A -> bool)
    (l : list A) (x : A) (rest : list A) :
  StronglySorted R l ->
  List.filter f l = x :: rest ->
  forall y, In y rest -> R x y.
Proof.
  induction 1 as [| a l Hs IH Hall]; simpl; intros E y Hy.
  - discriminate.
  - destruct (f a).
    + injection E as -> <-.
      apply filter_In in Hy. destruct Hy as [Hy _].
      rewrite List.Forall_forall in Hall. apply Hall, Hy.
    + apply IH; assumption.
Qed.

Lemma minutes_between_pos (t0 t1 : Z) :
  (t0 < t1)%Z -> 0 < minutes_between t0 t1.
Proof.
  intros H. unfold minutes_between.
  assert (Hd : 0 < inject_Z (t1 - t0)).
  { change 0 with (inject_Z 0). rewrite <- Zlt_Qlt. lia. }
  apply Qlt_shift_div_l; [reflexivity |].
  apply Qlt_shift_div_l; [reflexivity |]. lra.
Qed.

Lemma truediv_nonzero (x y : Q) : ~ y == 0 -> truediv x y = Ok (x / y).
Proof.
  intros H. unfold truediv.
  destruct (Qeq_bool y 0) eqn:E; [| reflexivity].
  apply Qeq_bool_iff in E. contradiction.
Qed.

Lemma truediv_zero (x y : Q) : y == 0 -> truediv x y = Raise ZeroDivisionError.
Proof.
  intros H. unfold truediv.
  apply Qeq_bool_iff in H. rewrite H. reflexivity.
Qed.

(** C7.  The momentum is 0 when the history is empty, when no point of the
    history lies in [[timestamp - lookback, timestamp)], and when the
    elapsed time from the baseline is not positive.  Otherwise the baseline
    is the first point of the history inside the window, which is the
    earliest one when the history is in chronological order, and the
    result is [((price - baseline) / baseline * 100) / elapsed minutes];
    the division by a baseline price of zero raises. *)
Theorem calculate_current_momentum_spec (b : TradingBot) (current_price : Q)
    (current_timestamp : Z) :
  let momentum := _calculate_current_momentum b current_price current_timestamp in
  (price_history b = [] -> momentum = Ok 0)
  /\ ((forall p, In p (price_history b) ->
                 ~ in_lookback_window b current_timestamp p) ->
      momentum = Ok 0)
  /\ (forall start rest,
      recent_data b current_timestamp = start :: rest ->
      let elapsed := minutes_between (pp_timestamp start) current_timestamp in
      In start (price_history b)
      /\ in_lookback_window b current_timestamp start
      /\ (chronological (price_history b) ->
          forall p, In p (price_history b) ->
                    in_lookback_window b current_timestamp p ->
                    (pp_timestamp start <= pp_timestamp p)%Z)
      /\ (~ 0 < elapsed -> momentum = Ok 0)
      /\ (0 < elapsed -> ~ pp_price start == 0 ->
          momentum =
          Ok ((current_price - pp_price start) / pp_price start * 100 / elapsed))
      /\ (0 < elapsed -> pp_price start == 0 ->
          momentum = Raise ZeroDivisionError)).
Proof.
  cbv zeta. split; [| split].
  - intros E. unfold _calculate_current_momentum. rewrite E. reflexivity.
  - intros H. apply recent_data_empty in H.
    unfold _calculate_current_momentum. rewrite H.
    destruct (price_history b); reflexivity.
  - intros start rest E.
    assert (Hin : In start (recent_data b current_timestamp))
      by (rewrite E; left; reflexivity).
    apply recent_data_In in Hin. destruct Hin as [Hin Hw].
    assert (Hne : price_history b <> []).
    { intros Hnil. rewrite Hnil in Hin. exact Hin. }
    split; [exact Hin |]. split; [exact Hw |]. split.
    { intros Hsorted p Hp Hpw.
      assert (Hp' : In p (recent_data b current_timestamp))
        by (apply recent_data_In; tauto).
      rewrite E in Hp'. destruct Hp' as [-> | Hp']; [lia |].
      exact (filter_head_least _ _ _ _ _ Hsorted E p Hp'). }
    unfold _calculate_current_momentum. rewrite E.
    destruct (price_history b) as [| p0 h]; [contradiction |].
    split; [| split].
    + intros Hle. destruct (gtb _ 0) eqn:G; [| reflexivity].
      apply gtb_gt in G. contradiction.
    + intros Hpos Hnz. apply gtb_gt in Hpos. rewrite Hpos.
      rewrite truediv_nonzero by exact Hnz. reflexivity.
    + intros Hpos Hz. apply gtb_gt in Hpos. rewrite Hpos.
      rewrite truediv_zero by exact Hz. reflexivity.
Qed.

Lemma calculate_current_momentum_spec_witness :
  _calculate_current_momentum (Examples.bot_with_prices []) 101 (minutes 10) = Ok 0
  /\ _calculate_current_momentum (Examples.bot_with_prices Examples.two_prices)
       101 (minutes 50) = Ok 0
  /\ _calculate_current_momentum (Examples.bot_with_prices Examples.two_prices)
       101 (minutes 10)
     = Ok ((101 - 100) / 100 * 100 / minutes_between 0 (minutes 10))
  /\ (forall p, In p Examples.two_prices ->
                in_lookback_window (Examples.bot_with_prices Examples.two_prices)
                                   (minutes 10) p ->
                (0 <= pp_timestamp p)%Z).
Proof.
  split; [| split; [| split]].
  - apply (proj1 (calculate_current_momentum_spec
                    (Examples.bot_with_prices []) 101 (minutes 10))).
    reflexivity.
  - apply (proj1 (proj2 (calculate_current_momentum_spec
                    (Examples.bot_with_prices Examples.two_prices) 101 (minutes 50)))).
    intros p [<- | [<- | []]] [H1 H2]; vm_compute in H1; apply H1; reflexivity.
  - refine (proj1 (proj2 (proj2 (proj2 (proj2 (proj2 (proj2
             (calculate_current_momentum_spec
                (Examples.bot_with_prices Examples.two_prices) 101 (minutes 10)))
             {| pp_timestamp := 0; pp_price := 100 |} [] eq_refl))))) _ _).
    + vm_compute. reflexivity.
    + vm_compute. discriminate.
  - refine (proj1 (proj2 (proj2 (proj2 (proj2
             (calculate_current_momentum_spec
                (Examples.bot_with_prices Examples.two_prices) 101 (minutes 10)))
             {| pp_timestamp := 0; pp_price := 100 |} [] eq_refl))) _).
    repeat constructor; vm_compute; discriminate.
Defined.

(** The example of a 1 percent rise over ten minutes: 0.1 percent per
    minute. *)
Example momentum_one_percent_in_ten_minutes :
  exists r, _calculate_current_momentum
              (Examples.bot_with_prices Examples.two_prices) 101 (minutes 10) = Ok r
            /\ r == 1 # 10.
Proof. eexists. split; [reflexivity | vm_compute; reflexivity]. Qed.

(** Inside the window the elapsed time is positive, so the zero-elapsed
    branch is never taken. *)
Lemma elapsed_positive_in_window (b : TradingBot) (ts : Z) (p : PricePoint) :
  in_lookback_window b ts p -> 0 < minutes_between (pp_timestamp p) ts.
Proof. intros [_ H]. apply minutes_between_pos, H. Qed.

(** The loop keeps the history in chronological order as long as the clock
    does not run backwards. *)
Lemma add_price_keeps_chronological (b : TradingBot) (price : Q) (ts : Z) :
  chronological (price_history b) ->
  (forall p, In p (price_history b) -> (pp_timestamp p <= ts)%Z) ->
  chronological (price_history (_add_price_to_history price ts b)).
Proof.
  intros Hs Hle. unfold _add_price_to_history. simpl.
  set (f := fun p : PricePoint => (_ <=? pp_timestamp p)%Z).
  assert (Happ : chronological
            (price_history b ++ [{| pp_timestamp := ts; pp_price := price |}])).
  { unfold chronological in *.
    induction Hs as [| a l Hs' IH Hall]; simpl.
    - constructor; constructor.
    - constructor.
      + apply IH. intros p Hp. apply Hle. right. exact Hp.
      + apply Forall_app. split; [exact Hall |].
        constructor; [| constructor]. simpl. apply Hle. left. reflexivity. }
  unfold chronological in *.
  induction Happ as [| a l Hs' IH Hall]; simpl.
  - constructor.
  - destruct (f a).
    + constructor; [exact IH |].
      rewrite List.Forall_forall in *. intros y Hy.
      apply filter_In in Hy. apply Hall, Hy.
    + exact IH.
Qed.

End Momentum.

(** ** Extreme momentum *)

Module Extreme.

Lemma Qsum_app (l1 l2 : list Q) : Qsum (l1 ++ l2) == Qsum l1 + Qsum l2.
Proof.
  induction l1 as [| x l1 IH]; simpl.
  - ring.
  - rewrite IH. ring.
Qed.

Lemma Qsum_nonneg (l : list Q) :
  (forall x, In x l -> 0 <= x) -> 0 <= Qsum l.
Proof.
  induction l as [| x l IH]; simpl; intros H.
  - lra.
  - assert (0 <= x) by (apply H; left; reflexivity).
    assert (0 <= Qsum l) by (apply IH; intros y Hy; apply H; right; exact Hy).
    lra.
Qed.

Lemma Qsum_zero_terms (l : list Q) :
  (forall x, In x l -> 0 <= x) -> Qsum l == 0 -> forall x, In x l -> x == 0.
Proof.
  induction l as [| a l IH]; simpl; intros Hpos Hsum x Hx.
  - contradiction.
  - assert (Ha : 0 <= a) by (apply Hpos; left; reflexivity).
    assert (Hl : 0 <= Qsum l)
      by (apply Qsum_nonneg; intros y Hy; apply Hpos; right; exact Hy).
    destruct Hx as [<- | Hx]; [lra |].
    apply IH; [intros y Hy; apply Hpos; right; exact Hy | lra | exact Hx].
Qed.

Lemma Qsum_all_zero (l : list Q) :
  (forall x, In x l -> x == 0) -> Qsum l == 0.
Proof.
  induction l as [| a l IH]; simpl; intros H.
  - reflexivity.
  - rewrite (H a) by (left; reflexivity).
    rewrite IH by (intros y Hy; apply H; right; exact Hy). ring.
Qed.

Lemma Qsum_constant (c : Q) (l : list Q) :
  (forall x, In x l -> x == c) ->
  Qsum l == inject_Z (Z.of_nat (length l)) * c.
Proof.
  induction l as [| a l IH]; intros H.
  - simpl. ring.
  - change (Qsum (a :: l)) with (a + Qsum l).
    change (length (a :: l)) with (S (length l)).
    rewrite Nat2Z.inj_succ. unfold Z.succ. rewrite inject_Z_plus.
    rewrite (H a) by (left; reflexivity).
    rewrite IH by (intros y Hy; apply H; right; exact Hy).
    ring.
Qed.

Lemma length_pos_Q (l : list Q) : l <> [] -> 0 < inject_Z (Z.of_nat (length l)).
Proof.
  intros H. destruct l as [| a l]; [contradiction |].
  change 0 with (inject_Z 0). rewrite <- Zlt_Qlt. simpl length. lia.
Qed.

Lemma np_mean_zero_iff (l : list Q) : l <> [] -> (np_mean l == 0 <-> Qsum l == 0).
Proof.
  intros H. apply length_pos_Q in H. unfold np_mean.
  set (n := inject_Z (Z.of_nat (length l))) in *.
  split; intros E.
  - assert (Hn : ~ n == 0) by lra.
    rewrite <- (Qmult_div_r (Qsum l) n Hn). rewrite E. ring.
  - rewrite E. unfold Qdiv. ring.
Qed.

Lemma np_mean_constant (c : Q) (l : list Q) :
  l <> [] -> (forall x, In x l -> x == c) -> np_mean l == c.
Proof.
  intros Hne H. unfold np_mean. rewrite (Qsum_constant c l H).
  pose proof (length_pos_Q l Hne) as Hn.
  field. lra.
Qed.

(** The variance vanishes exactly when all values equal the mean. *)
Lemma np_var_zero_iff (l : list Q) :
  l <> [] -> (np_var l == 0 <-> forall x, In x l -> x == np_mean l).
Proof.
  intros Hne. unfold np_var. cbv zeta.
  set (mu := np_mean l).
  assert (Hne' : List.map (fun x => (x - mu) * (x - mu)) l <> []).
  { destruct l; [contradiction | discriminate]. }
  rewrite (np_mean_zero_iff _ Hne'). split.
  - intros Hs x Hx.
    assert (Hpos : forall y, In y (List.map (fun x => (x - mu) * (x - mu)) l) -> 0 <= y).
    { intros y Hy. apply in_map_iff in Hy. destruct Hy as (z & <- & _).
      generalize (z - mu). intros t. nra. }
    assert (Hsq : (x - mu) * (x - mu) == 0).
    { apply (Qsum_zero_terms _ Hpos Hs).
      apply in_map_iff. exists x. split; [reflexivity | exact Hx]. }
    apply Qmult_integral in Hsq. lra.
  - intros H. apply Qsum_all_zero. intros y Hy.
    apply in_map_iff in Hy. destruct Hy as (x & <- & Hx).
    rewrite (H x Hx). ring.
Qed.

Lemma recent_list_has_candidate (b : TradingBot) (cand : Q) (ts : Z) :
  In cand (recent_momentum_list b cand ts)
  /\ recent_momentum_list b cand ts <> [].
Proof.
  unfold recent_momentum_list. split.
  - apply in_or_app. right. left. reflexivity.
  - intros H. apply app_eq_nil in H. destruct H as [_ H]. discriminate.
Qed.

(** Deciding [d > k * sqrt v] by squares agrees with the comparison
    against any rational square root of [v]. *)
Lemma gt_scaled_sqrt_sound (d k v s : Q) :
  0 <= s -> s * s == v -> (gt_scaled_sqrt d k v = true <-> k * s < d).
Proof.
  intros Hs Hv. unfold gt_scaled_sqrt.
  assert (Hsq : k * k * v == (k * s) * (k * s)) by (rewrite <- Hv; ring).
  destruct (geb k 0) eqn:K.
  - apply geb_ge in K.
    assert (Ht : 0 <= k * s) by (apply Qmult_le_0_compat; assumption).
    revert Hsq Ht. generalize (k * s). intros t Hsq Ht.
    rewrite andb_true_iff, !gtb_gt, Hsq.
    split; [intros [H1 H2] | intros H; split]; nra.
  - assert (K' : k < 0).
    { destruct (Qlt_le_dec k 0) as [H | H]; [exact H |].
      apply geb_ge in H. congruence. }
    assert (Ht : k * s <= 0) by nra.
    revert Hsq Ht. generalize (k * s). intros t Hsq Ht.
    rewrite orb_true_iff, gtb_gt, ltb_lt, Hsq.
    split; [intros [H | H] | intros H]; nra.
Qed.

Lemma min_required_points_ok (b : TradingBot) :
  price_resolution_minutes (config b) <> 0%Z ->
  truediv (inject_Z (momentum_history_window_minutes (config b)))
          (inject_Z (price_resolution_minutes (config b)))
  = Ok (inject_Z (momentum_history_window_minutes (config b))
        / inject_Z (price_resolution_minutes (config b))).
Proof.
  intros H. apply Momentum.truediv_nonzero.
  intros E. apply H. change 0 with (inject_Z 0) in E.
  exact (proj1 (inject_Z_injective _ _) E).
Qed.


Lemma np_var_nonneg (l : list Q) : l <> [] -> 0 <= np_var l.
Proof.
  intros Hne. unfold np_var. cbv zeta. set (mu := np_mean l).
  unfold np_mean at 1. rewrite length_map.
  pose proof (length_pos_Q l Hne) as Hn.
  apply Qle_shift_div_l; [exact Hn |].
  rewrite Qmult_0_l. apply Qsum_nonneg.
  intros y Hy. apply in_map_iff in Hy. destruct Hy as (z & <- & _).
  generalize (z - mu). intros t. nra.
Qed.

Lemma Q2R_zero : Q2R 0 = 0%R.
Proof. unfold Q2R. simpl. Lra.lra. Qed.

(** Deciding [d > k * sqrt v] by squares is the comparison of real
    numbers, for every non-negative rational [v]. *)
Lemma gt_scaled_sqrt_real (d k v : Q) :
  0 <= v ->
  gt_scaled_sqrt d k v = true <-> (Q2R k * R_sqrt.sqrt (Q2R v) < Q2R d)%R.
Proof.
  intros Hv.
  assert (Hv' : (0 <= Q2R v)%R) by (rewrite <- Q2R_zero; apply Qle_Rle, Hv).
  pose proof (sqrt_pos (Q2R v)) as Hs.
  pose proof (sqrt_sqrt (Q2R v) Hv') as Hss.
  set (s := R_sqrt.sqrt (Q2R v)) in *.
  assert (Ht : (Q2R k * s * (Q2R k * s) = Q2R k * Q2R k * Q2R v)%R)
    by (rewrite <- Hss; ring).
  unfold gt_scaled_sqrt.
  destruct (geb k 0) eqn:K.
  - apply geb_ge in K. apply Qle_Rle in K. rewrite Q2R_zero in K.
    assert (Hks : (0 <= Q2R k * s)%R) by (apply Rmult_le_pos; assumption).
    revert Ht Hks. generalize (Q2R k * s)%R. intros t Ht Hks.
    rewrite andb_true_iff, !gtb_gt. split.
    + intros [H1 H2]. apply Qlt_Rlt in H1, H2. rewrite Q2R_zero in H1.
      rewrite !Q2R_mult in H2. Lra.nra.
    + intros H. split; apply Rlt_Qlt; rewrite ?Q2R_zero, ?Q2R_mult; Lra.nra.
  - assert (K' : (Q2R k < 0)%R).
    { rewrite <- Q2R_zero. apply Qlt_Rlt.
      destruct (Qlt_le_dec k 0) as [H | H]; [exact H |].
      apply geb_ge in H. congruence. }
    assert (Hks : (Q2R k * s <= 0)%R) by Lra.nra.
    revert Ht Hks. generalize (Q2R k * s)%R. intros t Ht Hks.
    rewrite orb_true_iff, gtb_gt, ltb_lt. split.
    + intros [H | H]; apply Qlt_Rlt in H;
        rewrite ?Q2R_zero, ?Q2R_mult in H; Lra.nra.
    + intros H. destruct (Rlt_le_dec 0 (Q2R d)) as [Hd | Hd].
      * left. apply Rlt_Qlt. rewrite Q2R_zero. exact Hd.
      * right. apply Rlt_Qlt. rewrite !Q2R_mult. Lra.nra.
Qed.

(** The branch taken for a positive deviation, with the standard
    deviation as the real square root of the variance. *)
Lemma positive_deviation_band (b : TradingBot) (current_momentum : Q)
    (current_timestamp : Z) :
  price_resolution_minutes (config b) <> 0%Z ->
  let l := recent_momentum_list b current_momentum current_timestamp in
  let k := Q2R (momentum_std_threshold (config b)) in
  let std := np_std l in
  inject_Z (momentum_history_window_minutes (config b))
    / inject_Z (price_resolution_minutes (config b)) - 1
    <= inject_Z (Z.of_nat (length l)) ->
  0 < np_var l ->
  exists r, _is_extreme_momentum b current_momentum current_timestamp = Ok r
            /\ (r = true <->
                (Q2R (np_mean l) + k * std < Q2R current_momentum
                 \/ Q2R current_momentum < Q2R (np_mean l) - k * std)%R).
Proof.
  intros Hres l k std Hlen Hpos.
  unfold _is_extreme_momentum.
  rewrite (min_required_points_ok b Hres). simpl bind. fold l.
  apply ltb_ge in Hlen. rewrite Hlen.
  assert (G : gtb (np_var l) 0 = true) by (apply gtb_gt; exact Hpos).
  rewrite G. eexists. split; [reflexivity |].
  rewrite orb_true_iff.
  rewrite !gt_scaled_sqrt_real by (apply Qlt_le_weak; exact Hpos).
  unfold Qminus. rewrite !Q2R_plus, !Q2R_opp. unfold std, np_std. fold k.
  split; intros [H | H]; (left; Lra.lra) || (right; Lra.lra).
Qed.

(** An all-equal history and a candidate that differs from it, with at
    least one point of the history in the window, have a positive
    deviation. *)
Lemma differing_candidate_has_deviation (b : TradingBot) (current_momentum c : Q)
    (current_timestamp : Z) :
  let l := recent_momentum_list b current_momentum current_timestamp in
  (forall m, In m (momentum_history b) -> mp_momentum m == c) ->
  ~ current_momentum == c ->
  (2 <= length l)%nat ->
  0 < np_var l.
Proof.
  intros l Hflat Hdiff Hlen.
  destruct (recent_list_has_candidate b current_momentum current_timestamp)
    as [Hcand Hne]. fold l in Hcand, Hne.
  pose proof (np_var_nonneg l Hne) as Hnn.
  destruct (Qlt_le_dec 0 (np_var l)) as [H | H]; [exact H |].
  exfalso. assert (Hz : np_var l == 0) by lra.
  pose proof (proj1 (np_var_zero_iff l Hne) Hz) as Heq.
  unfold l, recent_momentum_list in Hlen, Heq.
  set (window := List.filter _ (momentum_history b)) in *.
  destruct window as [| m0 rest] eqn:Ew; [cbn in Hlen; lia |].
  assert (Hm0 : In m0 (momentum_history b)).
  { assert (Hin : In m0 window) by (rewrite Ew; left; reflexivity).
    apply filter_In in Hin. exact (proj1 Hin). }
  apply Hdiff.
  rewrite (Heq current_momentum)
    by (apply in_or_app; right; left; reflexivity).
  rewrite <- (Heq (mp_momentum m0)) by (left; reflexivity).
  apply Hflat, Hm0.
Qed.




End Extreme.

(** ** Reconciliation *)

Section Reconcile.

Context {W : Type} {EX : ExchangeClient W}.

Lemma same_runtime_params_refl (b : TradingBot) : same_runtime_params b b.
Proof. repeat split. Qed.

Lemma same_runtime_params_file (b b' : TradingBot) :
  same_runtime_params b b' -> runtime_parameters b' = runtime_parameters b.
Proof.
  intros (H1 & H2 & H3 & H4 & H5). unfold runtime_parameters.
  rewrite H1, H2, H3, H4, H5. reflexivity.
Qed.

(** What one reconciliation call does to the machine: the five durable
    attributes are never touched; a FILLED result comes from a live order
    id, carries that id and the side it was asked for, and has written the
    attributes as they stand; any other result writes nothing. *)
Lemma check_order_status_effects (order_id : Z) (side : string)
    (expected_price expected_size : Q) (local_ts : string) (m : Machine W) :
  let r := fst (_check_order_status order_id side expected_price expected_size local_ts m) in
  let m' := snd (_check_order_status order_id side expected_price expected_size local_ts m) in
  same_runtime_params (bot m) (bot m')
  /\ config (bot m') = config (bot m)
  /\ expected_sell_price (bot m') = expected_sell_price (bot m)
  /\ expected_sell_size (bot m') = expected_sell_size (bot m)
  /\ (order_status r = FILLED ->
      order_id <> 0%Z /\ executed_order_id r = order_id /\ executed_side r = side
      /\ params_file m' = Some (runtime_parameters (bot m))
      /\ trace m' = trace m ++ [EvSaveParams (runtime_parameters (bot m))])
  /\ (order_status r <> FILLED ->
      executed_order_id r = (if (order_id =? NOT_ENOUGH_BALANCE)%Z then order_id else 0%Z)
      /\ params_file m' = params_file m /\ trace m' = trace m).
Proof.
  unfold _check_order_status.
  destruct (order_id =? NOT_ENOUGH_BALANCE)%Z eqn:E1.
  { simpl. repeat split; try discriminate; try reflexivity. }
  destruct (order_id =? 0)%Z eqn:E2.
  { simpl. repeat split; try discriminate; try reflexivity. }
  apply Z.eqb_neq in E2.
  destruct (check_order_status order_id (world m)) as [[[[status price] size] fee] w1].
  destruct (status_of_exchange status) eqn:St;
    try (simpl; repeat split; try discriminate; try reflexivity; congruence).
  cbn -[runtime_parameters].
  destruct (get_order_fill_details order_id w1) as [details w2].
  unfold _get_account_balance. cbn -[runtime_parameters].
  destruct (get_account_balance "BTC" w2) as [btc w3].
  destruct (get_account_balance "USDT" w3) as [usdt w4].
  destruct details as [[[ot fr] ft] |]; cbn -[runtime_parameters];
    repeat split; try discriminate; try reflexivity; try assumption;
    try (intros; exfalso; congruence).
Qed.

(** With no live order (id 0) the call reports CANCELED
    with order id 0, price 0 and size 0, and touches nothing. *)
Lemma check_order_status_no_order (side : string)
    (expected_price expected_size : Q) (local_ts : string) (m : Machine W) :
  _check_order_status 0 side expected_price expected_size local_ts m
  = ({| order_status := CANCELED; executed_order_id := 0;
        executed_price := 0; executed_size := 0; executed_side := "";
        fill_time_ms := default_fill_time |}, m).
Proof. reflexivity. Qed.

End Reconcile.

Section Cycle.

Context {W : Type} {EX : ExchangeClient W}.

Lemma ltb_false_leb (s1 s2 : string) :
  String.ltb s1 s2 = false -> String.leb s2 s1 = true.
Proof.
  unfold String.ltb, String.leb. rewrite (String.compare_antisym s1 s2).
  destruct (String.compare s2 s1); simpl; congruence.
Qed.

Lemma ltb_true_leb (s1 s2 : string) :
  String.ltb s1 s2 = true -> String.leb s1 s2 = true.
Proof.
  unfold String.ltb, String.leb.
  destruct (String.compare s1 s2); simpl; congruence.
Qed.

(** What the reconciliation of both sides does to the machine. *)
Lemma reconcile_orders_effects (local_ts : string) (m : Machine W) :
  let buy_result := fst (fst (reconcile_orders local_ts m)) in
  let sell_result := snd (fst (reconcile_orders local_ts m)) in
  let m' := snd (reconcile_orders local_ts m) in
  let saved := EvSaveParams (runtime_parameters (bot m)) in
  same_runtime_params (bot m) (bot m')
  /\ config (bot m') = config (bot m)
  /\ (order_status buy_result = FILLED ->
      buy_order_id (bot m) <> 0%Z
      /\ executed_order_id buy_result = buy_order_id (bot m)
      /\ executed_side buy_result = "buy")
  /\ (order_status sell_result = FILLED ->
      sell_order_id (bot m) <> 0%Z
      /\ executed_order_id sell_result = sell_order_id (bot m)
      /\ executed_side sell_result = "sell")
  /\ trace m' = trace m
       ++ (if is_filled buy_result then [saved] else [])
       ++ (if is_filled sell_result then [saved] else [])
  /\ params_file m' =
       (if is_filled buy_result || is_filled sell_result
        then Some (runtime_parameters (bot m)) else params_file m).
Proof.
  unfold reconcile_orders.
  pose proof (check_order_status_effects (buy_order_id (bot m)) "buy"
                (expected_buy_price (bot m)) (expected_buy_size (bot m))
                local_ts m) as Hb.
  destruct (_check_order_status (buy_order_id (bot m)) "buy"
              (expected_buy_price (bot m)) (expected_buy_size (bot m))
              local_ts m) as [br m1].
  pose proof (check_order_status_effects (sell_order_id (bot m1)) "sell"
                (expected_sell_price (bot m1)) (expected_sell_size (bot m1))
                local_ts m1) as Hs.
  destruct (_check_order_status (sell_order_id (bot m1)) "sell"
              (expected_sell_price (bot m1)) (expected_sell_size (bot m1))
              local_ts m1) as [sr m2].
  cbn [fst snd] in *.
  destruct Hb as (Hb1 & Hb2 & _ & _ & Hb3 & Hb4).
  destruct Hs as (Hs1 & Hs2 & _ & _ & Hs3 & Hs4).
  pose proof (same_runtime_params_file _ _ Hb1) as Hfile.
  destruct Hb1 as (B1 & B2 & B3 & B4 & B5).
  destruct Hs1 as (S1 & S2 & S3 & S4 & S5).
  split; [repeat split; congruence |].
  split; [congruence |].
  split; [intros H; destruct (Hb3 H) as (? & ? & ? & _); auto |].
  split; [intros H; destruct (Hs3 H) as (? & ? & ? & _);
          rewrite <- B5; auto |].
  unfold is_filled.
  destruct (order_status br) eqn:Eb; destruct (order_status sr) eqn:Es;
    try (destruct (Hb3 eq_refl) as (_ & _ & _ & Fb & Tb));
    try (destruct (Hb4 ltac:(discriminate)) as (_ & Fb & Tb));
    try (destruct (Hs3 eq_refl) as (_ & _ & _ & Fs & Ts));
    try (destruct (Hs4 ltac:(discriminate)) as (_ & Fs & Ts));
    rewrite Ts, Tb, Fs, ?Fb, ?Hfile, ?app_nil_r, <- ?app_assoc;
    split; reflexivity.
Qed.

(** What the placement operation computes and touches.  The sell price is
    the rounded anchor above [last_price], whatever the current price; the
    buy price is the rounded anchor below [last_price], cut down to the
    rounded offset above the current price. *)
Lemma set_new_orders_effects (current_price : Q) (m : Machine W) :
  exists ids m' placed,
    _set_new_orders current_price m = Ok (ids, m')
    /\ expected_sell_price (bot m')
       = round2 (last_price (bot m) * (1 + price_movement_threshold (config (bot m))))
    /\ expected_buy_price (bot m')
       = py_min
           (round2 (last_price (bot m) * (1 - price_movement_threshold (config (bot m)))))
           (round2 (current_price * (1 + price_adjustment_offset (config (bot m)))))
    /\ same_runtime_params (bot m) (bot m')
    /\ params_file m' = params_file m
    /\ trace m' = trace m ++ placed
    /\ Forall (fun e => exists side price size, e = EvPlaceOrder side price size) placed.
Proof.
  unfold _set_new_orders. cbv zeta.
  rewrite WalletFacts.check_order_size_sell. cbn [bind].
  match goal with
  | |- context [if ?c then place_and_read ?s ?p ?z ?mm else _] =>
      destruct c; [unfold place_and_read at 1;
                   destruct (place_order s p z (world mm)) as [[id |] w1] |]
  end;
  rewrite WalletFacts.check_order_size_buy; cbn [bind];
  match goal with
  | |- context [if ?c then place_and_read ?s ?p ?z ?mm else _] =>
      destruct c; [unfold place_and_read;
                   destruct (place_order s p z (world mm)) as [[id' |] w2] |]
  end;
  do 2 eexists; eexists;
  (split; [reflexivity |]);
  cbn -[round2 py_min py_max];
  (split; [reflexivity |]); (split; [reflexivity |]);
  (split; [repeat split |]); (split; [reflexivity |]);
  (split; [rewrite <- ?app_assoc; try reflexivity;
           symmetry; apply app_nil_r |]);
  repeat constructor; eauto.
Qed.

End Cycle.

(** ** Placement *)

Module Placement.
Import Examples.

(** C2 fails on the sell side.  With [last_price] 100 and the market at
    110, the placement operation asks 101 for the sell: line 245 stores the
    larger of the anchor and the offset price in [expected_sell_size], which
    line 246 overwrites, and [expected_sell_price] keeps the anchor.  The
    order goes out at 101, below [110 * (1 - 0.001)].  The buy side applies
    the cut to the price itself. *)
Theorem sell_price_crosses_market :
  exists ids m',
    @_set_new_orders nat (Script.client calm) 110 (machine_of start_bot)
      = Ok (ids, m')
    /\ expected_sell_price (bot m') == 101
    /\ expected_sell_price (bot m')
       < 110 * (1 - price_adjustment_offset DEFAULT_TRADING_CONFIG)
    /\ trace m' = [EvPlaceOrder "sell" (expected_sell_price (bot m'))
                                (sell_size_btc start_bot);
                   EvPlaceOrder "buy" (expected_buy_price (bot m'))
                                (buy_size_btc start_bot)]
    /\ expected_buy_price (bot m')
       <= round2 (110 * (1 + price_adjustment_offset DEFAULT_TRADING_CONFIG)).
Proof.
  do 2 eexists. split; [vm_compute; reflexivity |].
  cbn [bot expected_sell_price expected_buy_price trace].
  split; [vm_compute; reflexivity |].
  split; [vm_compute; reflexivity |].
  split; [vm_compute; reflexivity |].
  vm_compute. discriminate.
Qed.

(** The mirror situation on the buy side: with the market at 90 the buy
    price is cut from the anchor 99 to 90.09, the rounded offset above the
    market. *)
Example buy_price_is_clamped :
  exists ids m',
    @_set_new_orders nat (Script.client calm) 90 (machine_of start_bot)
      = Ok (ids, m')
    /\ expected_buy_price (bot m') == 9009 # 100.
Proof.
  do 2 eexists. split; [vm_compute; reflexivity |].
  vm_compute. reflexivity.
Qed.

End Placement.

(** ** Start-up and the parameters file *)

Section StartupFacts.

Context {W : Type} {EX : ExchangeClient W}.

Lemma runtime_parameters_lookup (b : TradingBot) :
  runtime_parameters b !! "last_price" = Some (JFloat (last_price b))
  /\ runtime_parameters b !! "buy_size_btc" = Some (JFloat (buy_size_btc b))
  /\ runtime_parameters b !! "sell_size_btc" = Some (JFloat (sell_size_btc b))
  /\ runtime_parameters b !! "buy_order_id" = Some (JInt (buy_order_id b))
  /\ runtime_parameters b !! "sell_order_id" = Some (JInt (sell_order_id b)).
Proof.
  unfold runtime_parameters.
  repeat split; repeat (rewrite lookup_insert_ne by discriminate);
    apply lookup_insert_eq.
Qed.

(** [_on_start] after [_save_runtime_params]: the five attributes come
    back as they were written, whether or not [log_event] is bound. *)
Lemma on_start_after_save (saved : TradingBot) (d_buy d_sell : Q) (m : Machine W) :
  params_file m = Some (runtime_parameters saved) ->
  exists m', _on_start d_buy d_sell m = Ok m'
             /\ same_runtime_params saved (bot m').
Proof.
  intros Hfile. unfold _on_start. rewrite Hfile.
  destruct (runtime_parameters_lookup saved) as (L1 & L2 & L3 & L4 & L5).
  rewrite L1, L2, L3, L4, L5. cbn.
  eexists. split; [reflexivity |]. repeat split.
Qed.

(** [_on_start] on a file without [last_price], once [log_event] is bound:
    the price comes from the exchange (0 when it gives none), the other
    attributes from the file. *)
Lemma on_start_missing_last_price (loaded : gmap string jnum)
    (d_buy d_sell : Q) (m : Machine W) :
  params_file m = Some loaded ->
  loaded !! "last_price" = None ->
  log_event_bound (bot m) = true ->
  exists m', _on_start d_buy d_sell m = Ok m'
    /\ last_price (bot m')
       = or_float (fst (get_price (asset (config (bot m))) (world m))) 0
    /\ buy_size_btc (bot m') = default d_buy (float_of <$> loaded !! "buy_size_btc")
    /\ sell_size_btc (bot m') = default d_sell (float_of <$> loaded !! "sell_size_btc")
    /\ buy_order_id (bot m') = default 0%Z (int_of <$> loaded !! "buy_order_id")
    /\ sell_order_id (bot m') = default 0%Z (int_of <$> loaded !! "sell_order_id").
Proof.
  intros Hfile Hmiss Hlog. unfold _on_start, self_log_event.
  rewrite Hfile, Hmiss, Hlog. cbn [bind].
  unfold last_price_from_exchange.
  destruct (get_price (asset (config (bot m))) (world m)) as [p w1].
  eexists. split; [reflexivity |]. repeat split.
Qed.

(** Inside [__init__] the attribute [log_event] is not bound yet when
    [_on_start] runs: a file without [last_price], and likewise a missing
    file, end the construction with an AttributeError. *)
Lemma init_without_last_price (cfg : TradingConfig) (w : W)
    (file : option (gmap string jnum)) :
  (forall loaded, file = Some loaded -> loaded !! "last_price" = None) ->
  init cfg w file = Raise AttributeError.
Proof.
  intros H. unfold init.
  destruct (get_account_balance "BTC" w) as [btc w1].
  destruct (get_account_balance "USDT" w1) as [usdt w2].
  destruct (get_minimum_size (asset cfg) w2) as [ms w3].
  unfold _on_start. cbn [params_file].
  destruct file as [loaded |]; [rewrite (H loaded eq_refl) |]; reflexivity.
Qed.

(** When the construction succeeds, lines 82-85 have put the order ids back
    to 0 and both sizes back to the start size, whatever the file held. *)
Lemma init_resets_sizes_and_ids (cfg : TradingConfig) (w : W)
    (file : option (gmap string jnum)) (m : Machine W) :
  init cfg w file = Ok m ->
  buy_order_id (bot m) = 0%Z /\ sell_order_id (bot m) = 0%Z
  /\ buy_size_btc (bot m) = order_start_size (bot m)
  /\ sell_size_btc (bot m) = order_start_size (bot m)
  /\ log_event_bound (bot m) = true.
Proof.
  unfold init.
  destruct (get_account_balance "BTC" w) as [btc w1].
  destruct (get_account_balance "USDT" w1) as [usdt w2].
  destruct (get_minimum_size (asset cfg) w2) as [ms w3].
  destruct (_on_start _ _ _) as [m1 | e]; cbn [bind]; [| discriminate].
  intros [= <-]. repeat split.
Qed.

End StartupFacts.

Module StartupExamples.
Import Examples.

(** C4 fails at start-up.  The file holds the four other entries and no
    [last_price]; the construction raises instead of asking the exchange
    for a price.  With the complete file the construction succeeds, but the
    bot starts with the start size 0.00065 and order ids 0 where the file
    holds a buy size of 0.0013 and the ids 1001 and 1002. *)
Theorem startup_from_saved_file :
  file_without_last_price !! "last_price" = None
  /\ file_without_last_price !! "buy_size_btc" = Some (JFloat (13 # 10000))
  /\ @init nat (Script.client calm) DEFAULT_TRADING_CONFIG 0%nat
       (Some file_without_last_price) = Raise AttributeError
  /\ exists m,
       @init nat (Script.client calm) DEFAULT_TRADING_CONFIG 0%nat (Some saved_file)
         = Ok m
       /\ last_price (bot m) = 100
       /\ saved_file !! "buy_size_btc" = Some (JFloat (13 # 10000))
       /\ buy_size_btc (bot m) == 65 # 100000
       /\ saved_file !! "buy_order_id" = Some (JInt 1001)
       /\ buy_order_id (bot m) = 0%Z
       /\ saved_file !! "sell_order_id" = Some (JInt 1002)
       /\ sell_order_id (bot m) = 0%Z.
Proof.
  split; [vm_compute; reflexivity |].
  split; [vm_compute; reflexivity |].
  split; [vm_compute; reflexivity |].
  eexists. split; [vm_compute; reflexivity |].
  repeat split; vm_compute; reflexivity.
Qed.

End StartupExamples.

(** ** The cycle *)

Section CycleFacts.

Context {W : Type} {EX : ExchangeClient W}.

Lemma no_save_app (t1 t2 : list event) :
  no_save t1 -> no_save t2 -> no_save (t1 ++ t2).
Proof.
  intros H1 H2 q Hin. apply in_app_or in Hin.
  destruct Hin as [Hin | Hin]; [exact (H1 q Hin) | exact (H2 q Hin)].
Qed.

Lemma no_save_nil : no_save [].
Proof. intros q []. Qed.

Lemma no_save_close : no_save [EvCloseAll].
Proof. intros q [H | []]. discriminate. Qed.

Lemma no_save_placed (t : list event) :
  Forall (fun e => exists side price size, e = EvPlaceOrder side price size) t ->
  no_save t.
Proof.
  intros H q Hin. rewrite List.Forall_forall in H.
  destruct (H _ Hin) as (side & price & size & E). discriminate.
Qed.

Lemma update_history_effects (price : Q) (ts : Z) (m m0 : Machine W)
    (is_extreme : bool) :
  update_history price ts m = Ok (is_extreme, m0) ->
  same_runtime_params (bot m) (bot m0)
  /\ config (bot m0) = config (bot m)
  /\ params_file m0 = params_file m
  /\ trace m0 = trace m
  /\ world m0 = world m.
Proof.
  unfold update_history. cbv zeta.
  destruct (_calculate_current_momentum _ _ _) as [mom | e]; cbn [bind];
    [| discriminate].
  destruct (_is_extreme_momentum _ _ _) as [ie | e]; cbn [bind];
    [| discriminate].
  intros [= <- <-]. repeat split.
Qed.

Lemma close_open_orders_effects (m : Machine W) :
  params_file (_close_open_orders m) = params_file m
  /\ trace (_close_open_orders m) = trace m ++ [EvCloseAll]
  /\ buy_order_id (bot (_close_open_orders m)) = 0%Z
  /\ sell_order_id (bot (_close_open_orders m)) = 0%Z
  /\ config (bot (_close_open_orders m)) = config (bot m)
  /\ last_price (bot (_close_open_orders m)) = last_price (bot m).
Proof. repeat split. Qed.

Lemma check_wallet_limits_effects (price : Q) (sell_id buy_id : Z) (m : Machine W) :
  params_file (_check_wallet_limits price sell_id buy_id m) = params_file m
  /\ exists t, trace (_check_wallet_limits price sell_id buy_id m) = trace m ++ t
               /\ no_save t.
Proof.
  unfold _check_wallet_limits. cbv zeta.
  destruct (_ && _); destruct (_ && _); cbn; split; try reflexivity.
  - exists [EvCloseAll; EvCloseAll]. rewrite <- app_assoc. split; [reflexivity |].
    apply (no_save_app [EvCloseAll] [EvCloseAll]); apply no_save_close.
  - exists [EvCloseAll]. split; [reflexivity | apply no_save_close].
  - exists [EvCloseAll]. split; [reflexivity | apply no_save_close].
  - exists []. rewrite app_nil_r. split; [reflexivity | apply no_save_nil].
Qed.

Tactic Notation "wallet_limits_step" ident(F) ident(t) ident(T) ident(N) :=
  match goal with
  | |- context [_check_wallet_limits ?p ?s ?b ?mm] =>
      destruct (check_wallet_limits_effects p s b mm) as (F & t & T & N)
  end.

(** The closing step of the cycle always returns: the placement never
    raises, since it asks the ledger with the sides "sell" and "buy". *)
Lemma decide_step_returns (price : Q) (is_extreme : bool)
    (buy_result sell_result : OrderExecutionResult) (m : Machine W) :
  exists m', decide_step price is_extreme buy_result sell_result m = Ok m'.
Proof.
  unfold decide_step.
  destruct (order_executed buy_result || order_executed sell_result);
    destruct is_extreme; cbn [negb bind]; try (eexists; reflexivity).
  destruct (set_new_orders_effects price (_close_open_orders m))
    as ([sell_id buy_id] & m1 & placed & E & _).
  rewrite E. cbn [bind]. eexists. reflexivity.
Qed.

(** Nothing after the reconciliation writes the parameters file. *)
Lemma decide_step_effects (price : Q) (is_extreme : bool)
    (buy_result sell_result : OrderExecutionResult) (m m' : Machine W) :
  decide_step price is_extreme buy_result sell_result m = Ok m' ->
  params_file m' = params_file m
  /\ exists t, trace m' = trace m ++ t /\ no_save t.
Proof.
  unfold decide_step.
  destruct (order_executed buy_result || order_executed sell_result).
  - destruct is_extreme; cbn [negb bind].
    + intros [= <-].
      wallet_limits_step F t T NS.
      rewrite F, T. split; [reflexivity |].
      exists ([EvCloseAll] ++ t). cbn [_close_open_orders emit trace].
      rewrite <- app_assoc. split; [reflexivity |].
      apply no_save_app; [apply no_save_close | exact NS].
    + destruct (set_new_orders_effects price (_close_open_orders m))
        as ([sell_id buy_id] & m1 & placed & E & _ & _ & _ & F1 & T1 & P1).
      rewrite E. cbn [bind].
      intros [= <-].
      wallet_limits_step F t T NS.
      rewrite F, T. cbn [with_bot params_file trace]. rewrite F1, T1.
      split; [reflexivity |].
      exists ([EvCloseAll] ++ placed ++ t). cbn [_close_open_orders emit trace].
      rewrite <- !app_assoc. split; [reflexivity |].
      apply no_save_app; [apply no_save_close |].
      apply no_save_app; [apply no_save_placed, P1 | exact NS].
  - destruct is_extreme; cbn [bind]; intros [= <-];
      wallet_limits_step F t T NS; rewrite F, T.
    + split; [reflexivity |].
      exists ([EvCloseAll] ++ t). cbn [_close_open_orders emit trace].
      rewrite <- app_assoc. split; [reflexivity |].
      apply no_save_app; [apply no_save_close | exact NS].
    + split; [reflexivity |]. exists t. split; [reflexivity | exact NS].
Qed.

End CycleFacts.

Section CycleClaims.

Context {W : Type} {EX : ExchangeClient W}.

Lemma is_filled_true (r : OrderExecutionResult) :
  is_filled r = true <-> order_status r = FILLED.
Proof.
  unfold is_filled. destruct (order_status r); split; congruence.
Qed.

Lemma filled_is_executed (r : OrderExecutionResult) :
  order_status r = FILLED -> order_executed r = true.
Proof. unfold order_executed. intros ->. reflexivity. Qed.

Lemma reconcile_orders_no_order (local_ts : string) (m : Machine W) :
  (buy_order_id (bot m) = 0%Z ->
   fst (fst (reconcile_orders local_ts m)) = no_order_result)
  /\ (sell_order_id (bot m) = 0%Z ->
      snd (fst (reconcile_orders local_ts m)) = no_order_result).
Proof.
  unfold reconcile_orders.
  pose proof (check_order_status_effects (buy_order_id (bot m)) "buy"
                (expected_buy_price (bot m)) (expected_buy_size (bot m))
                local_ts m) as Hb.
  split.
  - intros H0. rewrite H0. rewrite check_order_status_no_order.
    destruct (_check_order_status _ "sell" _ _ _ _). reflexivity.
  - intros H0.
    destruct (_check_order_status (buy_order_id (bot m)) "buy" _ _ _ _) as [br m1].
    cbn [fst snd] in Hb. destruct Hb as ((_ & _ & _ & _ & Hid) & _).
    rewrite Hid, H0. rewrite check_order_status_no_order. reflexivity.
Qed.

(** C5.  When both sides come back FILLED from the reconciliation, the
    two fills are applied in ascending order of their reported fill times
    (texts, compared as Python compares strings; on a tie the buy goes
    first): the size adjustment and the [last_price] update of the earlier
    fill, then those of the later one, so that [last_price] ends as the
    executed price of the later fill. *)
Theorem fills_applied_in_fill_time_order (local_ts : string) (m : Machine W) :
  let buy_result := fst (fst (reconcile_orders local_ts m)) in
  let sell_result := snd (fst (reconcile_orders local_ts m)) in
  let m' := snd (reconcile_orders local_ts m) in
  order_status buy_result = FILLED ->
  order_status sell_result = FILLED ->
  exists earlier later,
    collect_orders buy_result sell_result = [earlier; later]
    /\ ((earlier = sell_result /\ later = buy_result
         /\ String.ltb (fill_time_ms sell_result) (fill_time_ms buy_result) = true)
        \/ (earlier = buy_result /\ later = sell_result
            /\ String.ltb (fill_time_ms sell_result) (fill_time_ms buy_result) = false))
    /\ String.leb (fill_time_ms earlier) (fill_time_ms later) = true
    /\ apply_orders (collect_orders buy_result sell_result) (bot m')
       = set_last_price (executed_price later)
           (_adjust_order_sizes (executed_side later)
              (set_last_price (executed_price earlier)
                 (_adjust_order_sizes (executed_side earlier) (bot m'))))
    /\ last_price (apply_orders (collect_orders buy_result sell_result) (bot m'))
       = executed_price later.
Proof.
  intros buy_result sell_result m' Hb Hs.
  destruct (reconcile_orders_effects local_ts m) as (_ & _ & Eb & Es & _).
  fold buy_result in Eb. fold sell_result in Es.
  destruct (Eb Hb) as (Nb & Ib & _). destruct (Es Hs) as (Ns & Is & _).
  assert (Ab : forall b, apply_order b buy_result
               = set_last_price (executed_price buy_result)
                   (_adjust_order_sizes (executed_side buy_result) b)).
  { intros b. unfold apply_order. rewrite Ib.
    apply Z.eqb_neq in Nb. rewrite Nb. reflexivity. }
  assert (As : forall b, apply_order b sell_result
               = set_last_price (executed_price sell_result)
                   (_adjust_order_sizes (executed_side sell_result) b)).
  { intros b. unfold apply_order. rewrite Is.
    apply Z.eqb_neq in Ns. rewrite Ns. reflexivity. }
  unfold collect_orders.
  rewrite (filled_is_executed _ Hb), (filled_is_executed _ Hs).
  destruct (String.ltb (fill_time_ms sell_result) (fill_time_ms buy_result)) eqn:L.
  - exists sell_result, buy_result.
    split; [reflexivity |]. split; [left; auto |].
    split; [apply ltb_true_leb, L |].
    unfold apply_orders. cbn [fold_left]. rewrite As, Ab.
    split; reflexivity.
  - exists buy_result, sell_result.
    split; [reflexivity |]. split; [right; auto |].
    split; [apply ltb_false_leb, L |].
    unfold apply_orders. cbn [fold_left app]. rewrite Ab, As.
    split; reflexivity.
Qed.

(** C9.  A stored order id of 0 is reported as CANCELED with order id 0,
    price 0 and size 0.  So in a cycle in which a side holds no order that
    side counts as executed: the cycle closes all orders and, unless the
    momentum is extreme, runs the placement of a fresh pair, before the
    wallet-limit check. *)
Theorem no_order_counts_as_executed (price : Q) (ts : Z) (local_ts : string)
    (m m0 : Machine W) (is_extreme : bool) :
  update_history price ts m = Ok (is_extreme, m0) ->
  buy_order_id (bot m) = 0%Z \/ sell_order_id (bot m) = 0%Z ->
  let buy_result := fst (fst (reconcile_orders local_ts m0)) in
  let sell_result := snd (fst (reconcile_orders local_ts m0)) in
  let m1 := snd (reconcile_orders local_ts m0) in
  let closed :=
    _close_open_orders
      (with_bot (apply_orders (collect_orders buy_result sell_result)) m1) in
  (forall side expected_price expected_size mm,
     _check_order_status 0 side expected_price expected_size local_ts mm
     = (no_order_result, mm))
  /\ (buy_order_id (bot m) = 0%Z ->
      buy_result = no_order_result /\ order_executed buy_result = true)
  /\ (sell_order_id (bot m) = 0%Z ->
      sell_result = no_order_result /\ order_executed sell_result = true)
  /\ In EvCloseAll (trace closed)
  /\ cycle price ts local_ts m
     = (try placed <~
          (if is_extreme then Ok closed
           else try ids_m <~ _set_new_orders price closed ;;
                let '((sell_id, buy_id), mm) := ids_m in
                Ok (with_bot (set_order_ids sell_id buy_id) mm)) ;;
        Ok (_check_wallet_limits price (sell_order_id (bot placed))
              (buy_order_id (bot placed)) placed))
  /\ exists m_end, cycle price ts local_ts m = Ok m_end.
Proof.
  intros Hup Hnone buy_result sell_result m1 closed.
  destruct (update_history_effects _ _ _ _ _ Hup) as ((_ & _ & _ & Ib & Is) & _).
  destruct (reconcile_orders_no_order local_ts m0) as [Rb Rs].
  rewrite Ib in Rb. rewrite Is in Rs.
  fold buy_result in Rb. fold sell_result in Rs.
  split; [intros; apply check_order_status_no_order |].
  split; [intros H; rewrite (Rb H); split; reflexivity |].
  split; [intros H; rewrite (Rs H); split; reflexivity |].
  split.
  { unfold closed. cbn [_close_open_orders emit trace].
    apply in_or_app. right. left. reflexivity. }
  assert (Hex : order_executed buy_result || order_executed sell_result = true).
  { apply orb_true_iff. destruct Hnone as [H | H];
      [left; rewrite (Rb H) | right; rewrite (Rs H)]; reflexivity. }
  unfold cycle. rewrite Hup. cbn [bind].
  unfold buy_result, sell_result, m1, closed in *.
  destruct (reconcile_orders local_ts m0) as [[br sr] m1']. cbn [fst snd] in *.
  split; [| apply decide_step_returns].
  unfold decide_step. rewrite Hex.
  destruct is_extreme; reflexivity.
Qed.

(** C10.  In a cycle, the reconciliation of both sides leaves
    [last_price], both sizes and both order ids as they were when the cycle
    began; a FILLED result on either side has written exactly those values
    to the parameters file; the fills are applied only afterwards and
    nothing later in the cycle writes the file.  So at the end of a cycle
    with a fill, the file holds the values from before the fill. *)
Theorem fill_time_save_is_stale (price : Q) (ts : Z) (local_ts : string)
    (m m0 : Machine W) (is_extreme : bool) :
  update_history price ts m = Ok (is_extreme, m0) ->
  let buy_result := fst (fst (reconcile_orders local_ts m0)) in
  let sell_result := snd (fst (reconcile_orders local_ts m0)) in
  let m1 := snd (reconcile_orders local_ts m0) in
  same_runtime_params (bot m) (bot m1)
  /\ exists m_end,
       cycle price ts local_ts m = Ok m_end
       /\ decide_step price is_extreme buy_result sell_result
            (with_bot (apply_orders (collect_orders buy_result sell_result)) m1)
          = Ok m_end
       /\ (is_filled buy_result || is_filled sell_result = true ->
           params_file m1 = Some (runtime_parameters (bot m))
           /\ params_file m_end = Some (runtime_parameters (bot m)))
       /\ (is_filled buy_result || is_filled sell_result = false ->
           params_file m_end = params_file m)
       /\ exists t, trace m_end = trace m ++ t
                    /\ saves_only (runtime_parameters (bot m)) t.
Proof.
  intros Hup. cbv zeta.
  destruct (update_history_effects _ _ _ _ _ Hup) as (S0 & _ & F0 & T0 & _).
  pose proof (same_runtime_params_file _ _ S0) as P0.
  pose proof (reconcile_orders_effects local_ts m0) as Hr.
  unfold cycle. rewrite Hup. cbn [bind].
  destruct (reconcile_orders local_ts m0) as [[br sr] m1].
  cbn [fst snd] in *. cbv zeta in Hr.
  destruct Hr as (S1 & _ & _ & _ & T1 & F1).
  rewrite P0 in T1, F1.
  split.
  { destruct S0 as (A1 & A2 & A3 & A4 & A5).
    destruct S1 as (B1 & B2 & B3 & B4 & B5).
    repeat split; congruence. }
  destruct (decide_step_returns price is_extreme br sr
              (with_bot (apply_orders (collect_orders br sr)) m1)) as [m_end Hc].
  exists m_end.
  destruct (decide_step_effects _ _ _ _ _ _ Hc) as (F2 & t2 & T2 & N2).
  cbn [with_bot params_file trace] in F2, T2.
  split; [exact Hc |]. split; [exact Hc |].
  split.
  { intros Hf. rewrite Hf in F1. rewrite F2. split; exact F1. }
  split.
  { intros Hf. rewrite Hf in F1. rewrite F2, F1. exact F0. }
  eexists. split.
  { rewrite T2, T1, T0, <- !app_assoc. reflexivity. }
  intros q Hq.
  apply in_app_or in Hq. destruct Hq as [Hq | Hq].
  - destruct (is_filled br); [destruct Hq as [Hq | []]; congruence | destruct Hq].
  - apply in_app_or in Hq. destruct Hq as [Hq | Hq].
    + destruct (is_filled sr); [destruct Hq as [Hq | []]; congruence | destruct Hq].
    + exfalso. exact (N2 q Hq).
Qed.

End CycleClaims.

(** ** The claims about the cycle on scripted exchanges *)

Module CycleExamples.
Import Examples.

Lemma fills_applied_in_fill_time_order_witness :
  let r := @reconcile_orders nat (Script.client both_filled) local_ts_example
             (machine_of resting_bot) in
  exists earlier later,
    collect_orders (fst (fst r)) (snd (fst r)) = [earlier; later]
    /\ String.leb (fill_time_ms earlier) (fill_time_ms later) = true
    /\ last_price (apply_orders (collect_orders (fst (fst r)) (snd (fst r)))
                               (bot (snd r)))
       = executed_price later.
Proof.
  intros r.
  destruct (@fills_applied_in_fill_time_order nat (Script.client both_filled)
              local_ts_example (machine_of resting_bot))
    as (earlier & later & H1 & _ & H3 & _ & H5).
  - vm_compute. reflexivity.
  - vm_compute. reflexivity.
  - exists earlier, later. repeat split; assumption.
Defined.

(** The sell was filled two seconds before the buy: the sell is applied
    first and [last_price] ends at 99, the price of the buy. *)
Example sell_fill_first_then_buy :
  let r := @reconcile_orders nat (Script.client both_filled) local_ts_example
             (machine_of resting_bot) in
  List.map executed_side (collect_orders (fst (fst r)) (snd (fst r)))
    = ["sell"; "buy"]
  /\ last_price (apply_orders (collect_orders (fst (fst r)) (snd (fst r)))
                             (bot (snd r))) = 99.
Proof. split; vm_compute; reflexivity. Qed.

(** The texts the loop compares: a real fill time sorts before the
    placeholder used when the fill details are missing, and the exchange
    client's "N/A" sorts after both. *)
Example fill_time_texts :
  String.ltb "2024-05-01 10:00:03 UTC" "2024-05-01 10:00:05 UTC" = true
  /\ String.ltb "2024-05-01 10:00:05 UTC" default_fill_time = true
  /\ String.ltb default_fill_time "N/A" = true.
Proof. repeat split. Qed.

(** Without a price the loop body waits ten seconds and changes nothing
    but the exchange. *)
Example iteration_without_price (s : Script.script) (m : Machine nat) :
  Script.s_price s = None ->
  @trade_iteration nat (Script.client s) 0 local_ts_example m = Ok (10%Z, m).
Proof.
  intros H. unfold trade_iteration. cbn. rewrite H.
  destruct m. reflexivity.
Qed.

Lemma first_sample_calm :
  update_history 100 0 (machine_of start_bot)
  = Ok (false, after_first_sample (machine_of start_bot)).
Proof. vm_compute. reflexivity. Defined.

Lemma no_order_counts_as_executed_witness :
  let m0 := after_first_sample (machine_of start_bot) in
  let r := @reconcile_orders nat (Script.client calm) local_ts_example m0 in
  fst (fst r) = no_order_result
  /\ order_executed (fst (fst r)) = true
  /\ In EvCloseAll
       (trace (@_close_open_orders nat (Script.client calm)
                 (with_bot (apply_orders
                              (collect_orders (fst (fst r)) (snd (fst r))))
                           (snd r)))).
Proof.
  intros m0 r.
  destruct (@no_order_counts_as_executed nat (Script.client calm) 100 0
              local_ts_example (machine_of start_bot) m0 false
              first_sample_calm (or_introl eq_refl))
    as (_ & Hb & _ & Hclose & _ & _).
  destruct (Hb eq_refl) as [H1 H2].
  split; [exact H1 |]. split; [exact H2 | exact Hclose].
Defined.

(** With no order on either side and a calm market, the cycle closes all
    orders and places a pair: a sell at 101 and a buy at 99. *)
Example cycle_without_orders :
  exists m_end,
    @cycle nat (Script.client calm) 100 0 local_ts_example (machine_of start_bot)
      = Ok m_end
    /\ List.map (fun e => match e with
                          | EvCloseAll => "close"
                          | EvPlaceOrder side _ _ => side
                          | EvSaveParams _ => "save"
                          end) (trace m_end)
       = ["close"; "sell"; "buy"]
    /\ sell_order_id (bot m_end) = 1001%Z
    /\ buy_order_id (bot m_end) = 1002%Z.
Proof.
  eexists. split; [vm_compute; reflexivity |].
  repeat split; vm_compute; reflexivity.
Qed.

Lemma first_sample_both_filled :
  update_history 100 0 (machine_of resting_bot)
  = Ok (false, after_first_sample (machine_of resting_bot)).
Proof. vm_compute. reflexivity. Defined.

Lemma fill_time_save_is_stale_witness :
  exists m_end,
    @cycle nat (Script.client both_filled) 100 0 local_ts_example
      (machine_of resting_bot) = Ok m_end
    /\ params_file m_end = Some (runtime_parameters resting_bot).
Proof.
  destruct (@fill_time_save_is_stale nat (Script.client both_filled) 100 0
              local_ts_example (machine_of resting_bot)
              (after_first_sample (machine_of resting_bot)) false
              first_sample_both_filled)
    as (_ & m_end & Hc & _ & Hfilled & _).
  exists m_end. split; [exact Hc |].
  apply Hfilled. vm_compute. reflexivity.
Defined.

(** After the cycle in which both orders were filled, the bot is anchored
    at 99 with a doubled buy size and a fresh pair of orders, while the
    file still shows the anchor 100, the start sizes and the two filled
    orders. *)
Example file_after_fills :
  exists m_end file,
    @cycle nat (Script.client both_filled) 100 0 local_ts_example
      (machine_of resting_bot) = Ok m_end
    /\ last_price (bot m_end) = 99
    /\ buy_size_btc (bot m_end) == 130 # 100000
    /\ buy_order_id (bot m_end) = 1002%Z
    /\ params_file m_end = Some file
    /\ file !! "last_price" = Some (JFloat 100)
    /\ file !! "buy_size_btc" = Some (JFloat (65 # 100000))
    /\ file !! "buy_order_id" = Some (JInt 1001).
Proof.
  do 2 eexists. split; [vm_compute; reflexivity |].
  split; [vm_compute; reflexivity |].
  split; [vm_compute; reflexivity |].
  split; [vm_compute; reflexivity |].
  split; [cbn [params_file]; reflexivity |].
  repeat split; vm_compute; reflexivity.
Qed.

End CycleExamples.

(** * Further properties of the ledger, the histories and the loop *)

(** ** The ledger *)

Module LedgerFacts.
Import Wallet Examples.

(** Recording an executed order stores the entry under its order id,
    replaces both balances by the ones the entry carries, and leaves the
    other entries and the commission rate alone. *)
Theorem update_executed_order_records (w : WalletManager) (e : ExecutedOrder) :
  let w' := update_executed_order w e in
  executed_orders w' !! eo_order_id e = Some e
  /\ current_btc w' = eo_account_btc_size e
  /\ current_usdt w' = eo_account_usdt_size e
  /\ commission_rate w' = commission_rate w
  /\ (forall id, id <> eo_order_id e ->
      executed_orders w' !! id = executed_orders w !! id).
Proof.
  cbv zeta. unfold update_executed_order. cbn.
  split; [apply lookup_insert_eq |].
  repeat split.
  intros id Hne. apply lookup_insert_ne. congruence.
Qed.

Lemma update_executed_order_records_witness :
  executed_orders (update_executed_order ledger entry_1001) !! 1001%Z
    = Some entry_1001
  /\ executed_orders (update_executed_order ledger entry_1001) !! 1002%Z = None.
Proof.
  destruct (update_executed_order_records ledger entry_1001)
    as (H1 & _ & _ & _ & H5).
  split; [exact H1 |].
  rewrite (H5 1002%Z); [reflexivity | discriminate].
Defined.

(** A side other than "buy" and "sell" ends the process: the check exits
    instead of answering. *)
Theorem check_order_size_invalid_side (w : WalletManager) (price size_btc : Q)
    (side : string) :
  side <> "buy" -> side <> "sell" ->
  check_order_size w price size_btc side = Raise SystemExit.
Proof.
  intros Hb Hs. unfold check_order_size.
  apply String.eqb_neq in Hb. apply String.eqb_neq in Hs.
  rewrite Hb, Hs. reflexivity.
Qed.

Lemma check_order_size_invalid_side_witness :
  check_order_size ledger 100 1 "" = Raise SystemExit.
Proof.
  apply check_order_size_invalid_side; discriminate.
Defined.

(** Affordability is monotone: when an order passes the check, so does
    any order of the same side that is no larger and no dearer (for
    non-negative sizes and prices and a rate above -1). *)
Theorem affordable_is_downward_closed (w : WalletManager)
    (price size_btc price' size_btc' : Q) :
  0 <= 1 + commission_rate w ->
  0 <= size_btc' <= size_btc ->
  0 <= price' <= price ->
  (_check_buy_order w price size_btc = true ->
   _check_buy_order w price' size_btc' = true)
  /\ (_check_sell_order w price size_btc = true ->
      _check_sell_order w price' size_btc' = true).
Proof.
  intros Hr Hs Hp. split; intros H.
  - apply WalletFacts.check_buy_true in H. apply WalletFacts.check_buy_true.
    assert (size_btc' * price' <= size_btc * price) by nra.
    nra.
  - apply WalletFacts.check_sell_true in H. apply WalletFacts.check_sell_true.
    nra.
Qed.

Lemma affordable_is_downward_closed_witness :
  _check_buy_order ledger 900 (1 # 2) = true
  /\ _check_sell_order ledger 900 (1 # 2) = true.
Proof.
  destruct (affordable_is_downward_closed ledger 1000 (9 # 10) 900 (1 # 2))
    as [Hb Hs].
  - vm_compute. discriminate.
  - split; vm_compute; discriminate.
  - split; vm_compute; discriminate.
  - split; [apply Hb | apply Hs]; vm_compute; reflexivity.
Defined.

End LedgerFacts.

(** ** The two histories *)

Module HistoryFacts.
Import Examples.

(** After a price is added, no stale point remains: every point kept is
    at most lookback + history minutes older than the new timestamp.
    Nothing inside that window is dropped, and the new sample itself is
    kept whenever the window is not negative. *)
Theorem price_history_is_pruned (b : TradingBot) (price : Q) (ts : Z) :
  let window := minutes (momentum_history_window_minutes (config b)
                         + momentum_lookback_window_minutes (config b)) in
  let sample := {| pp_timestamp := ts; pp_price := price |} in
  let kept := price_history (_add_price_to_history price ts b) in
  (forall p, In p kept -> (ts - window <= pp_timestamp p)%Z)
  /\ (forall p, In p kept -> In p (price_history b) \/ p = sample)
  /\ (forall p, In p (price_history b) -> (ts - window <= pp_timestamp p)%Z ->
                In p kept)
  /\ ((0 <= window)%Z -> In sample kept).
Proof.
  cbv zeta. unfold _add_price_to_history. cbn [price_history set_price_history].
  repeat split.
  - intros p Hp. apply filter_In in Hp. destruct Hp as [_ Hp].
    apply Z.leb_le in Hp. exact Hp.
  - intros p Hp. apply filter_In in Hp. destruct Hp as [Hp _].
    apply in_app_or in Hp. destruct Hp as [Hp | [Hp | []]]; auto.
  - intros p Hp Hw. apply filter_In. split.
    + apply in_or_app. left. exact Hp.
    + apply Z.leb_le. exact Hw.
  - intros Hw. apply filter_In. split.
    + apply in_or_app. right. left. reflexivity.
    + apply Z.leb_le. cbn [pp_timestamp]. lia.
Qed.

Lemma price_history_is_pruned_witness :
  In {| pp_timestamp := minutes 100; pp_price := 102 |}
     (price_history
        (_add_price_to_history 102 (minutes 100) (bot_with_prices two_prices)))
  /\ ~ In {| pp_timestamp := 0; pp_price := 100 |}
          (price_history
             (_add_price_to_history 102 (minutes 100) (bot_with_prices two_prices)))
  /\ In {| pp_timestamp := minutes 10; pp_price := 101 |}
        (price_history
           (_add_price_to_history 102 (minutes 100) (bot_with_prices two_prices))).
Proof.
  destruct (price_history_is_pruned (bot_with_prices two_prices) 102 (minutes 100))
    as (H1 & _ & H3 & H4).
  split; [apply H4; vm_compute; discriminate |].
  split.
  - intros Hin. apply H1 in Hin. vm_compute in Hin. apply Hin. reflexivity.
  - apply H3.
    + right. left. reflexivity.
    + vm_compute. discriminate.
Defined.

(** The same for the momentum history, with a window of history
    minutes. *)
Theorem momentum_history_is_pruned (b : TradingBot) (momentum : Q) (ts : Z) :
  let window := minutes (momentum_history_window_minutes (config b)) in
  let sample := {| mp_timestamp := ts; mp_momentum := momentum |} in
  let kept := momentum_history (_add_momentum_to_history momentum ts b) in
  (forall p, In p kept -> (ts - window <= mp_timestamp p)%Z)
  /\ (forall p, In p kept -> In p (momentum_history b) \/ p = sample)
  /\ (forall p, In p (momentum_history b) -> (ts - window <= mp_timestamp p)%Z ->
                In p kept)
  /\ ((0 <= window)%Z -> In sample kept).
Proof.
  cbv zeta. unfold _add_momentum_to_history.
  cbn [momentum_history set_momentum_history].
  repeat split.
  - intros p Hp. apply filter_In in Hp. destruct Hp as [_ Hp].
    apply Z.leb_le in Hp. exact Hp.
  - intros p Hp. apply filter_In in Hp. destruct Hp as [Hp _].
    apply in_app_or in Hp. destruct Hp as [Hp | [Hp | []]]; auto.
  - intros p Hp Hw. apply filter_In. split.
    + apply in_or_app. left. exact Hp.
    + apply Z.leb_le. exact Hw.
  - intros Hw. apply filter_In. split.
    + apply in_or_app. right. left. reflexivity.
    + apply Z.leb_le. cbn [mp_timestamp]. lia.
Qed.

Lemma momentum_history_is_pruned_witness :
  In {| mp_timestamp := minutes 61; mp_momentum := 1 |}
     (momentum_history (_add_momentum_to_history 1 (minutes 61) flat_momentum_bot))
  /\ ~ In {| mp_timestamp := minutes 0; mp_momentum := 0 |}
          (momentum_history (_add_momentum_to_history 1 (minutes 61) flat_momentum_bot)).
Proof.
  destruct (momentum_history_is_pruned flat_momentum_bot 1 (minutes 61))
    as (H1 & _ & _ & H4).
  split; [apply H4; vm_compute; discriminate |].
  intros Hin. apply H1 in Hin. vm_compute in Hin. apply Hin. reflexivity.
Defined.

Lemma add_price_keeps_chronological_witness :
  chronological
    (price_history
       (_add_price_to_history 102 (minutes 20) (bot_with_prices two_prices))).
Proof.
  apply Momentum.add_price_keeps_chronological.
  - repeat constructor; vm_compute; discriminate.
  - intros p [<- | [<- | []]]; vm_compute; discriminate.
Defined.

(** A flat series has momentum 0: when every point of the history has the
    current price, and that price is not zero, the momentum is 0. *)
Theorem flat_prices_have_zero_momentum (b : TradingBot) (price : Q) (ts : Z) :
  ~ price == 0 ->
  (forall p, In p (price_history b) -> pp_price p == price) ->
  exists r, _calculate_current_momentum b price ts = Ok r /\ r == 0.
Proof.
  intros Hnz Hflat. unfold _calculate_current_momentum.
  destruct (price_history b) as [| p0 h] eqn:Eh; [exists 0; split; reflexivity |].
  destruct (recent_data b ts) as [| start rest] eqn:Er;
    [exists 0; split; reflexivity |].
  assert (Hin : In start (recent_data b ts)) by (rewrite Er; left; reflexivity).
  apply Momentum.recent_data_In in Hin. destruct Hin as [Hin _].
  rewrite Eh in Hin. apply Hflat in Hin.
  destruct (gtb _ 0); [| exists 0; split; reflexivity].
  rewrite Momentum.truediv_nonzero by (rewrite Hin; exact Hnz).
  cbn [bind]. eexists. split; [reflexivity |].
  rewrite Hin. unfold Qdiv. ring.
Qed.

Lemma flat_prices_have_zero_momentum_witness :
  exists r,
    _calculate_current_momentum
      (bot_with_prices [{| pp_timestamp := 0; pp_price := 100 |};
                        {| pp_timestamp := minutes 1; pp_price := 100 |}])
      100 (minutes 2) = Ok r
    /\ r == 0.
Proof.
  apply flat_prices_have_zero_momentum.
  - vm_compute. discriminate.
  - intros p [<- | [<- | []]]; reflexivity.
Defined.

(** The sign of the momentum is the direction of the price against a
    positive baseline: positive exactly when the price is above the
    baseline, negative exactly when it is below. *)
Theorem momentum_sign_follows_price (b : TradingBot) (price : Q) (ts : Z)
    (start : PricePoint) (rest : list PricePoint) :
  recent_data b ts = start :: rest ->
  0 < pp_price start ->
  exists r, _calculate_current_momentum b price ts = Ok r
            /\ (0 < r <-> pp_price start < price)
            /\ (r < 0 <-> price < pp_price start).
Proof.
  intros Er Hpos.
  assert (Hin : In start (recent_data b ts)) by (rewrite Er; left; reflexivity).
  apply Momentum.recent_data_In in Hin. destruct Hin as [Hin Hw].
  pose proof (Momentum.elapsed_positive_in_window b ts start Hw) as Hel.
  unfold _calculate_current_momentum. rewrite Er.
  destruct (price_history b) as [| p0 h]; [contradiction |].
  apply gtb_gt in Hel. rewrite Hel. apply gtb_gt in Hel.
  rewrite Momentum.truediv_nonzero by lra.
  cbn [bind]. eexists. split; [reflexivity |].
  set (e := minutes_between (pp_timestamp start) ts) in *.
  set (p := pp_price start) in *.
  assert (Hr : (price - p) / p * 100 / e == (price - p) * (100 / (p * e))).
  { field. split; lra. }
  assert (Hk : 0 < 100 / (p * e)).
  { apply Qlt_shift_div_l; nra. }
  rewrite Hr. revert Hk. generalize (100 / (p * e)). intros k Hk.
  split; split; intros H; nra.
Qed.

Lemma momentum_sign_follows_price_witness :
  exists r,
    _calculate_current_momentum (bot_with_prices two_prices) 99 (minutes 20) = Ok r
    /\ (r < 0 <-> 99 < 100).
Proof.
  destruct (momentum_sign_follows_price (bot_with_prices two_prices) 99 (minutes 20)
              {| pp_timestamp := 0; pp_price := 100 |}
              [{| pp_timestamp := minutes 10; pp_price := 101 |}])
    as (r & Hr & _ & Hneg).
  - vm_compute. reflexivity.
  - vm_compute. reflexivity.
  - exists r. split; [exact Hr | exact Hneg].
Defined.

End HistoryFacts.

(** ** The extreme test and the price check *)

Module GuardFacts.
Import Examples.

(** During warm-up the test never fires: with fewer gathered samples than
    [history / resolution - 1] the result is not-extreme, whatever the
    values.  A resolution of 0 raises ZeroDivisionError. *)
Theorem extreme_needs_enough_samples (b : TradingBot) (current_momentum : Q)
    (current_timestamp : Z) :
  let l := recent_momentum_list b current_momentum current_timestamp in
  (price_resolution_minutes (config b) <> 0%Z ->
   inject_Z (Z.of_nat (length l))
     < inject_Z (momentum_history_window_minutes (config b))
       / inject_Z (price_resolution_minutes (config b)) - 1 ->
   _is_extreme_momentum b current_momentum current_timestamp = Ok false)
  /\ (price_resolution_minutes (config b) = 0%Z ->
      _is_extreme_momentum b current_momentum current_timestamp
      = Raise ZeroDivisionError).
Proof.
  cbv zeta. split.
  - intros Hres Hlen. unfold _is_extreme_momentum.
    rewrite (Extreme.min_required_points_ok b Hres). cbn [bind].
    apply ltb_lt in Hlen. rewrite Hlen. reflexivity.
  - intros Hres. unfold _is_extreme_momentum. rewrite Hres. reflexivity.
Qed.

Lemma extreme_needs_enough_samples_witness :
  _is_extreme_momentum start_bot 1000 0 = Ok false
  /\ _is_extreme_momentum bot_without_resolution 1000 0 = Raise ZeroDivisionError.
Proof.
  split.
  - apply (proj1 (extreme_needs_enough_samples start_bot 1000 0)).
    + vm_compute. discriminate.
    + vm_compute. reflexivity.
  - apply (proj2 (extreme_needs_enough_samples bot_without_resolution 1000 0)).
    reflexivity.
Defined.


(** With a [last_price] of 0 or below (as after a start-up whose price
    query gave nothing), no price passes the check: every pass through the
    loop body waits ten seconds and leaves the bot, the file and the trace
    as they are; only the exchange has been asked for the price. *)
Theorem no_price_is_valid_without_anchor {W : Type} {EX : ExchangeClient W}
    (current_timestamp : Z) (local_ts : string) (m : Machine W) :
  last_price (bot m) * price_validation_threshold (config (bot m)) <= 0 ->
  (forall price, _is_valid_price (bot m) price = false)
  /\ trade_iteration current_timestamp local_ts m
     = Ok (10%Z, with_world (snd (get_price (asset (config (bot m))) (world m))) m).
Proof.
  intros Hle.
  assert (Hinv : forall price, _is_valid_price (bot m) price = false).
  { intros price. unfold _is_valid_price. apply ltb_ge.
    pose proof (Qabs_nonneg (price - last_price (bot m))). lra. }
  split; [exact Hinv |].
  unfold trade_iteration.
  destruct (get_price (asset (config (bot m))) (world m)) as [[price |] w1];
    cbn [snd]; [| reflexivity].
  cbn [with_world bot]. rewrite Hinv. reflexivity.
Qed.

Lemma no_price_is_valid_without_anchor_witness :
  @trade_iteration nat (Script.client calm) 0 local_ts_example
    (machine_of (set_last_price 0 start_bot))
  = Ok (10%Z, machine_of (set_last_price 0 start_bot)).
Proof.
  apply (proj2 (@no_price_is_valid_without_anchor nat (Script.client calm) 0
                  local_ts_example (machine_of (set_last_price 0 start_bot))
                  ltac:(vm_compute; discriminate))).
Defined.

End GuardFacts.

(** ** Sizes and prices of the orders *)

Module OrderFacts.
Import Examples.

Lemma min_absorbs_scaling (cap c y : Q) :
  0 <= cap -> 1 <= c -> Qmin cap (c * Qmin cap y) == Qmin cap (c * y).
Proof.
  intros Hcap Hc.
  destruct (Q.min_spec cap y) as [[H1 E1] | [H1 E1]]; rewrite E1.
  - rewrite Q.min_l by nra. rewrite Q.min_l by nra. reflexivity.
  - reflexivity.
Qed.

Lemma two_power_ge_1 (k : nat) : 1 <= inject_Z (2 ^ Z.of_nat k).
Proof.
  change 1 with (inject_Z 1). rewrite <- Zle_Qle.
  pose proof (Z.pow_pos_nonneg 2 (Z.of_nat k)). lia.
Qed.

Lemma two_power_succ (k : nat) :
  inject_Z (2 ^ Z.of_nat (S k)) == 2 * inject_Z (2 ^ Z.of_nat k).
Proof.
  rewrite Nat2Z.inj_succ, Z.pow_succ_r by lia.
  rewrite inject_Z_mult. reflexivity.
Qed.

Lemma repeated_fills_step (s : Side) (k : nat) (b : TradingBot) :
  adjust_all (repeat s (S k)) b
  = adjust_all (repeat s k) (_adjust_order_sizes (side_name s) b).
Proof. reflexivity. Qed.

(** The ratchet in closed form: with a non-negative ceiling, [k + 1] fills
    in a row on one side take that side's size [x] to the smaller of the
    ceiling and [2^(k+1) * x], and leave the other side at the start
    size. *)
Theorem consecutive_fills_grow_geometrically (k : nat) (b : TradingBot) :
  0 <= size_cap b ->
  (buy_size_btc (adjust_all (repeat Buy (S k)) b)
     == Qmin (size_cap b) (inject_Z (2 ^ Z.of_nat (S k)) * buy_size_btc b)
   /\ sell_size_btc (adjust_all (repeat Buy (S k)) b) = order_start_size b)
  /\ (sell_size_btc (adjust_all (repeat Sell (S k)) b)
        == Qmin (size_cap b) (inject_Z (2 ^ Z.of_nat (S k)) * sell_size_btc b)
      /\ buy_size_btc (adjust_all (repeat Sell (S k)) b) = order_start_size b).
Proof.
  revert b. induction k as [| k IH]; intros b Hcap.
  - change (inject_Z (2 ^ Z.of_nat 1)) with 2.
    repeat split; cbn; rewrite ?py_min_Qmin;
      try reflexivity; (apply Q.min_compat; [reflexivity | ring]).
  - rewrite !(repeated_fills_step _ (S k)).
    destruct (Sizing.adjust_keeps_cap "buy" b) as [Cb Sb].
    destruct (Sizing.adjust_keeps_cap "sell" b) as [Cs Ss].
    destruct (IH (_adjust_order_sizes "buy" b)) as [[B1 B2] _];
      [rewrite Cb; exact Hcap |].
    destruct (IH (_adjust_order_sizes "sell" b)) as [_ [S1 S2]];
      [rewrite Cs; exact Hcap |].
    cbn [side_name]. rewrite Cb, Sb in *. rewrite Cs, Ss in *.
    split; split; try assumption.
    + rewrite B1. unfold _adjust_order_sizes. cbn.
      rewrite py_min_Qmin.
      rewrite (min_absorbs_scaling _ _ _ Hcap (two_power_ge_1 (S k))).
      rewrite (two_power_succ (S k)).
      apply Q.min_compat; [reflexivity | ring].
    + rewrite S1. unfold _adjust_order_sizes. cbn.
      rewrite py_min_Qmin.
      rewrite (min_absorbs_scaling _ _ _ Hcap (two_power_ge_1 (S k))).
      rewrite (two_power_succ (S k)).
      apply Q.min_compat; [reflexivity | ring].
Qed.

Lemma consecutive_fills_grow_geometrically_witness :
  buy_size_btc (adjust_all (repeat Buy 3) start_bot)
    == Qmin (size_cap start_bot) (inject_Z (2 ^ 3) * buy_size_btc start_bot).
Proof.
  apply (consecutive_fills_grow_geometrically 2 start_bot).
  vm_compute. discriminate.
Defined.

Lemma round_half_even_error (x : Q) :
  x - (1 # 2) <= inject_Z (round_half_even x) <= x + (1 # 2).
Proof.
  unfold round_half_even. cbv zeta.
  pose proof (Qfloor_le x) as Hlo.
  pose proof (Qlt_floor x) as Hhi.
  rewrite inject_Z_plus in Hhi. change (inject_Z 1) with 1 in Hhi.
  destruct (Qcompare (x - inject_Z (Qfloor x)) (1 # 2)) eqn:C.
  - apply Qeq_alt in C.
    destruct (Z.even (Qfloor x)); rewrite ?inject_Z_plus;
      change (inject_Z 1) with 1; lra.
  - apply Qlt_alt in C. lra.
  - apply Qgt_alt in C. rewrite inject_Z_plus. change (inject_Z 1) with 1. lra.
Qed.

(** [round(x, 2)] moves a price by at most half a cent. *)
Lemma round2_error (x : Q) : x - (1 # 200) <= round2 x <= x + (1 # 200).
Proof.
  unfold round2. pose proof (round_half_even_error (x * 100)) as H.
  revert H. generalize (inject_Z (round_half_even (x * 100))). intros r H.
  assert (E : r / 100 == r * (1 # 100)) by (field).
  rewrite E. lra.
Qed.

Section Placing.

Context {W : Type} {EX : ExchangeClient W}.

(** The prices of a placement, up to the half cent of the rounding: the
    sell price is not under the anchor [last_price * (1 + threshold)], and
    the buy price is over neither the anchor [last_price * (1 - threshold)]
    nor the current price plus the offset. *)
Theorem placement_prices (current_price : Q) (m : Machine W) :
  let cfg := config (bot m) in
  let sell_anchor := last_price (bot m) * (1 + price_movement_threshold cfg) in
  let buy_anchor := last_price (bot m) * (1 - price_movement_threshold cfg) in
  exists ids m',
    _set_new_orders current_price m = Ok (ids, m')
    /\ sell_anchor - (1 # 200) <= expected_sell_price (bot m')
    /\ expected_buy_price (bot m') <= buy_anchor + (1 # 200)
    /\ expected_buy_price (bot m')
       <= current_price * (1 + price_adjustment_offset cfg) + (1 # 200).
Proof.
  cbv zeta.
  destruct (set_new_orders_effects current_price m)
    as (ids & m' & placed & E & Hs & Hb & _).
  exists ids, m'. split; [exact E |].
  rewrite Hs, Hb.
  split; [apply (proj1 (round2_error _)) |].
  split.
  - eapply Qle_trans; [apply py_min_le_l | apply round2_error].
  - eapply Qle_trans; [apply py_min_le_r | apply round2_error].
Qed.

End Placing.

Section Reconciling.

Context {W : Type} {EX : ExchangeClient W}.

(** A placement never returns the id 0: each side comes back with a live
    id or with the insufficient-balance sentinel.  A side that the ledger
    turns down gets the sentinel and no order of that side is sent. *)
Theorem placement_ids (current_price : Q) (m : Machine W) :
  exists sell_id buy_id m' placed,
    _set_new_orders current_price m = Ok ((sell_id, buy_id), m')
    /\ trace m' = trace m ++ placed
    /\ sell_id <> 0%Z /\ buy_id <> 0%Z
    /\ (Wallet._check_sell_order (wallet (bot m))
          (expected_sell_price (bot m')) (sell_size_btc (bot m)) = false ->
        sell_id = NOT_ENOUGH_BALANCE
        /\ forall price size, ~ In (EvPlaceOrder "sell" price size) placed)
    /\ (Wallet._check_buy_order (wallet (bot m))
          (expected_buy_price (bot m')) (buy_size_btc (bot m)) = false ->
        buy_id = NOT_ENOUGH_BALANCE
        /\ forall price size, ~ In (EvPlaceOrder "buy" price size) placed).
Proof.
  unfold _set_new_orders. cbv zeta.
  rewrite WalletFacts.check_order_size_sell. cbn [bind].
  cbn -[round2 py_min py_max Wallet._check_sell_order Wallet._check_buy_order
        Wallet.check_order_size gtb].
  destruct (Wallet._check_sell_order _ _ _) eqn:Cs;
    [destruct (gtb (sell_size_btc (bot m)) 0) eqn:Gs;
       [unfold place_and_read at 1;
        cbn -[round2 py_min py_max Wallet._check_buy_order
              Wallet.check_order_size gtb];
        destruct (place_order "sell" _ _ (world m)) as [[sid |] w1];
        [destruct (sid =? 0)%Z eqn:Es; [| apply Z.eqb_neq in Es] |] |]
    | change (gtb 0 0) with false];
    cbn -[round2 py_min py_max Wallet._check_buy_order
          Wallet.check_order_size gtb];
    rewrite WalletFacts.check_order_size_buy; cbn [bind];
    cbn -[round2 py_min py_max Wallet._check_buy_order gtb];
    (destruct (Wallet._check_buy_order _ _ _) eqn:Cb;
     [destruct (gtb (buy_size_btc (bot m)) 0) eqn:Gb;
        [unfold place_and_read;
         cbn -[round2 py_min py_max gtb];
         match goal with
         | |- context [place_order "buy" ?p ?z ?w] =>
             destruct (place_order "buy" p z w) as [[bid |] w2]
         end;
         [destruct (bid =? 0)%Z eqn:Eb; [| apply Z.eqb_neq in Eb] |] |]
     | change (gtb 0 0) with false]);
    cbn -[round2 py_min py_max gtb];
    do 3 eexists; eexists;
    (split; [reflexivity |]);
    cbn -[round2 py_min py_max gtb];
    (split; [rewrite <- ?app_assoc; try reflexivity;
             symmetry; apply app_nil_r |]);
    (split; [assumption || discriminate |]);
    (split; [assumption || discriminate |]);
    (split; intros Hrej; try congruence;
     (split; [reflexivity |]); intros p z Hin;
     repeat (destruct Hin as [Hin | Hin]; [discriminate |]); exact Hin).
Qed.

(** The wallet-limit check leaves the machine alone unless a side holds
    the sentinel.  When it fires, [last_price] becomes the current price
    and both order ids are cleared.  For a non-negative threshold and
    price it cancels the orders at most once, and [last_price] ends either
    as it was or as the current price. *)
Theorem wallet_limits_reanchor (price : Q) (sell_id buy_id : Z) (m : Machine W) :
  let thr := price_movement_threshold (config (bot m)) in
  let m' := _check_wallet_limits price sell_id buy_id m in
  (sell_id <> NOT_ENOUGH_BALANCE -> buy_id <> NOT_ENOUGH_BALANCE -> m' = m)
  /\ (sell_id = NOT_ENOUGH_BALANCE -> last_price (bot m) * (1 + thr) < price ->
      last_price (bot m') = price
      /\ sell_order_id (bot m') = 0%Z /\ buy_order_id (bot m') = 0%Z)
  /\ (buy_id = NOT_ENOUGH_BALANCE -> sell_id <> NOT_ENOUGH_BALANCE ->
      price < last_price (bot m) * (1 - thr) ->
      last_price (bot m') = price
      /\ sell_order_id (bot m') = 0%Z /\ buy_order_id (bot m') = 0%Z)
  /\ (0 <= thr -> 0 <= price ->
      (trace m' = trace m /\ last_price (bot m') = last_price (bot m))
      \/ (trace m' = trace m ++ [EvCloseAll] /\ last_price (bot m') = price)).
Proof.
  cbv zeta. unfold _check_wallet_limits. cbv zeta.
  set (thr := price_movement_threshold (config (bot m))).
  split; [| split; [| split]].
  - intros Hs Hb. apply Z.eqb_neq in Hs. apply Z.eqb_neq in Hb.
    rewrite Hs, Hb. reflexivity.
  - intros -> Hgt. apply gtb_gt in Hgt.
    rewrite Z.eqb_refl, Hgt. cbn [andb].
    destruct (_ && _); repeat split.
  - intros -> Hs Hlt. apply Z.eqb_neq in Hs. apply ltb_lt in Hlt.
    rewrite Hs. cbn [andb]. rewrite Z.eqb_refl, Hlt. repeat split.
  - intros Hthr Hprice.
    destruct ((sell_id =? NOT_ENOUGH_BALANCE)%Z
              && gtb price (last_price (bot m) * (1 + thr))) eqn:E1.
    + assert (E2 : ltb price
                     (last_price
                        (bot (_close_open_orders
                                (with_bot (set_last_price price) m)))
                      * (1 - thr))
                   = false).
      { apply ltb_ge. cbn. nra. }
      cbv iota. rewrite E2, andb_false_r. right. split; reflexivity.
    + cbv iota.
      destruct ((buy_id =? NOT_ENOUGH_BALANCE)%Z && _);
        [right | left]; split; reflexivity.
Qed.

(** What a FILLED result has done to the ledger: the order is recorded
    under its id with the expected and the executed price and size, the
    side and the fill time of the result, and the ledger's balances are
    the ones stored in that entry.  Any other result leaves the ledger as
    it was. *)
Theorem filled_order_is_recorded (order_id : Z) (side : string)
    (expected_price expected_size : Q) (local_ts : string) (m : Machine W) :
  let r := fst (_check_order_status order_id side expected_price expected_size
                  local_ts m) in
  let m' := snd (_check_order_status order_id side expected_price expected_size
                   local_ts m) in
  (order_status r = FILLED ->
   exists e,
     Wallet.executed_orders (wallet (bot m')) !! order_id = Some e
     /\ Wallet.eo_price_expected e = expected_price
     /\ Wallet.eo_size_expected e = expected_size
     /\ Wallet.eo_price_actual e = executed_price r
     /\ Wallet.eo_size_actual e = executed_size r
     /\ Wallet.eo_side e = side
     /\ Wallet.eo_fill_time_ms e = fill_time_ms r
     /\ Wallet.current_btc (wallet (bot m')) = Wallet.eo_account_btc_size e
     /\ Wallet.current_usdt (wallet (bot m')) = Wallet.eo_account_usdt_size e)
  /\ (order_status r <> FILLED -> wallet (bot m') = wallet (bot m)).
Proof.
  unfold _check_order_status.
  destruct (order_id =? NOT_ENOUGH_BALANCE)%Z eqn:E1.
  { cbn. split; [discriminate | reflexivity]. }
  destruct (order_id =? 0)%Z eqn:E2.
  { cbn. split; [discriminate | reflexivity]. }
  destruct (check_order_status order_id (world m)) as [[[[status price] size] fee] w1].
  destruct (status_of_exchange status) eqn:St;
    try (cbn; split; [discriminate | reflexivity]).
  cbn. unfold _get_account_balance. cbn.
  destruct (get_order_fill_details order_id w1) as [details w2].
  destruct (get_account_balance "BTC" w2) as [btc w3].
  destruct (get_account_balance "USDT" w3) as [usdt w4].
  destruct details as [[[ot fr] ft] |]; cbn;
    (split; [intros _ | intros H; congruence]);
    eexists; (split; [apply lookup_insert_eq |]); repeat split.
Qed.

(** A result that counts as executed without being FILLED carries the
    order id 0. *)
Lemma canceled_result_has_no_id (order_id : Z) (side : string)
    (expected_price expected_size : Q) (local_ts : string) (m : Machine W) :
  let r := fst (_check_order_status order_id side expected_price expected_size
                  local_ts m) in
  order_status r <> FILLED -> order_executed r = true ->
  executed_order_id r = 0%Z.
Proof.
  unfold _check_order_status.
  destruct (order_id =? NOT_ENOUGH_BALANCE)%Z; [cbn; discriminate |].
  destruct (order_id =? 0)%Z; [reflexivity |].
  destruct (check_order_status order_id (world m)) as [[[[status price] size] fee] w1].
  destruct (status_of_exchange status); try reflexivity.
  cbn. destruct (get_order_fill_details order_id w1) as [[[[ot fr] ft] |] w2];
    cbn; congruence.
Qed.

(** Cancellations move nothing: when neither side comes back FILLED from
    the reconciliation, applying the collected results leaves every bot
    state as it is, so the sizes and [last_price] change only on a fill. *)
Theorem only_fills_are_applied (local_ts : string) (m : Machine W)
    (b : TradingBot) :
  let buy_result := fst (fst (reconcile_orders local_ts m)) in
  let sell_result := snd (fst (reconcile_orders local_ts m)) in
  order_status buy_result <> FILLED ->
  order_status sell_result <> FILLED ->
  apply_orders (collect_orders buy_result sell_result) b = b.
Proof.
  unfold reconcile_orders.
  pose proof (canceled_result_has_no_id (buy_order_id (bot m)) "buy"
                (expected_buy_price (bot m)) (expected_buy_size (bot m))
                local_ts m) as Hb.
  destruct (_check_order_status (buy_order_id (bot m)) "buy" _ _ _ _) as [br m1].
  pose proof (canceled_result_has_no_id (sell_order_id (bot m1)) "sell"
                (expected_sell_price (bot m1)) (expected_sell_size (bot m1))
                local_ts m1) as Hs.
  destruct (_check_order_status (sell_order_id (bot m1)) "sell" _ _ _ _) as [sr m2].
  cbn [fst snd] in *. intros Nb Ns.
  assert (Ab : forall b', order_executed br = true -> apply_order b' br = b').
  { intros b' Hex. unfold apply_order. rewrite (Hb Nb Hex). reflexivity. }
  assert (As : forall b', order_executed sr = true -> apply_order b' sr = b').
  { intros b' Hex. unfold apply_order. rewrite (Hs Ns Hex). reflexivity. }
  unfold collect_orders, apply_orders.
  destruct (order_executed br) eqn:Eb; destruct (order_executed sr) eqn:Es;
    try destruct (String.ltb _ _); cbn [fold_left app];
    rewrite ?Ab, ?As by reflexivity; reflexivity.
Qed.

(** While the momentum is extreme the closing step is one cancellation of
    all orders, whether or not anything was executed: no order is placed,
    both ids are cleared, and the wallet-limit check that follows finds no
    sentinel and does nothing. *)
Theorem extreme_places_nothing (price : Q)
    (buy_result sell_result : OrderExecutionResult) (m : Machine W) :
  decide_step price true buy_result sell_result m = Ok (_close_open_orders m)
  /\ trace (_close_open_orders m) = trace m ++ [EvCloseAll]
  /\ buy_order_id (bot (_close_open_orders m)) = 0%Z
  /\ sell_order_id (bot (_close_open_orders m)) = 0%Z.
Proof.
  split.
  - unfold decide_step.
    destruct (order_executed buy_result || order_executed sell_result);
      reflexivity.
  - repeat split.
Qed.

(** A WAITING result comes from a live order id: neither 0 nor the
    sentinel. *)
Lemma waiting_result_has_live_id (order_id : Z) (side : string)
    (expected_price expected_size : Q) (local_ts : string) (m : Machine W) :
  order_status (fst (_check_order_status order_id side expected_price
                       expected_size local_ts m)) = WAITING ->
  order_id <> NOT_ENOUGH_BALANCE /\ order_id <> 0%Z.
Proof.
  unfold _check_order_status.
  destruct (order_id =? NOT_ENOUGH_BALANCE)%Z eqn:E1; [cbn; discriminate |].
  destruct (order_id =? 0)%Z eqn:E2; [cbn; discriminate |].
  intros _. split; apply Z.eqb_neq; assumption.
Qed.

(** A resting pair is left alone: when both sides come back WAITING and
    the momentum is not extreme, the cycle ends in the state the
    reconciliation left, with nothing added to the trace, the file
    untouched, and [last_price], sizes and order ids as they were. *)
Theorem waiting_orders_rest (price : Q) (ts : Z) (local_ts : string)
    (m m0 : Machine W) :
  update_history price ts m = Ok (false, m0) ->
  let r := reconcile_orders local_ts m0 in
  order_status (fst (fst r)) = WAITING ->
  order_status (snd (fst r)) = WAITING ->
  cycle price ts local_ts m = Ok (snd r)
  /\ trace (snd r) = trace m
  /\ params_file (snd r) = params_file m
  /\ same_runtime_params (bot m) (bot (snd r)).
Proof.
  intros Hup. cbv zeta.
  destruct (update_history_effects _ _ _ _ _ Hup) as (S0 & _ & F0 & T0 & _).
  unfold cycle. rewrite Hup. cbn [bind].
  pose proof (reconcile_orders_effects local_ts m0) as Hr.
  unfold reconcile_orders in *.
  pose proof (waiting_result_has_live_id (buy_order_id (bot m0)) "buy"
                (expected_buy_price (bot m0)) (expected_buy_size (bot m0))
                local_ts m0) as Wb.
  pose proof (check_order_status_effects (buy_order_id (bot m0)) "buy"
                (expected_buy_price (bot m0)) (expected_buy_size (bot m0))
                local_ts m0) as Hc.
  destruct (_check_order_status (buy_order_id (bot m0)) "buy" _ _ _ _) as [br m1].
  pose proof (waiting_result_has_live_id (sell_order_id (bot m1)) "sell"
                (expected_sell_price (bot m1)) (expected_sell_size (bot m1))
                local_ts m1) as Ws.
  destruct (_check_order_status (sell_order_id (bot m1)) "sell" _ _ _ _) as [sr m2].
  cbn [fst snd] in *. cbv zeta in Hr.
  intros Hb Hs.
  destruct Hr as (S1 & _ & _ & _ & T1 & F1).
  destruct Hc as ((_ & _ & _ & _ & C5) & _).
  unfold is_filled in T1, F1. rewrite Hb, Hs in T1, F1.
  cbn [orb app] in T1, F1. rewrite app_nil_r in T1.
  destruct (Wb Hb) as [Nb _]. destruct (Ws Hs) as [Ns _].
  split.
  - unfold decide_step, collect_orders, order_executed. rewrite Hb, Hs.
    cbn [orb bind].
    change (apply_orders []) with (fun b : TradingBot => b).
    unfold _check_wallet_limits. cbn [with_bot bot].
    destruct S1 as (_ & _ & _ & B4 & B5).
    rewrite B4, B5. rewrite C5 in Ns.
    apply Z.eqb_neq in Nb. apply Z.eqb_neq in Ns.
    rewrite Nb, Ns. cbn [andb]. destruct m2. reflexivity.
  - split; [congruence |]. split; [congruence |].
    destruct S0 as (A1 & A2 & A3 & A4 & A5).
    destruct S1 as (B1 & B2 & B3 & B4 & B5).
    repeat split; congruence.
Qed.

End Reconciling.

End OrderFacts.

Module OrderExamples.
Import Examples OrderFacts.

Lemma placement_ids_witness :
  exists sell_id buy_id m' placed,
    @_set_new_orders nat (Script.client calm) 100 (machine_of bot_without_base)
      = Ok ((sell_id, buy_id), m')
    /\ trace m' = placed
    /\ sell_id = NOT_ENOUGH_BALANCE
    /\ forall price size, ~ In (EvPlaceOrder "sell" price size) placed.
Proof.
  destruct (@placement_ids nat (Script.client calm) 100 (machine_of bot_without_base))
    as (sell_id & buy_id & m' & placed & E & T & _ & _ & Hs & _).
  exists sell_id, buy_id, m', placed.
  split; [exact E |]. split; [exact T |].
  apply Hs.
  assert (Hp : expected_sell_price (bot m') = round2 (100 * (1 + (1 # 100)))).
  { destruct (@set_new_orders_effects nat (Script.client calm) 100
                (machine_of bot_without_base))
      as (ids & m2 & placed2 & E2 & P & _).
    rewrite E in E2. injection E2 as _ <-. exact P. }
  rewrite Hp. vm_compute. reflexivity.
Defined.

Lemma wallet_limits_reanchor_witness :
  last_price
    (bot (@_check_wallet_limits nat (Script.client calm) 102
            NOT_ENOUGH_BALANCE 1001 (machine_of start_bot))) = 102.
Proof.
  destruct (@wallet_limits_reanchor nat (Script.client calm) 102
              NOT_ENOUGH_BALANCE 1001 (machine_of start_bot))
    as (_ & H & _).
  apply H; [reflexivity | vm_compute; reflexivity].
Defined.

Lemma filled_order_is_recorded_witness :
  exists e,
    Wallet.executed_orders
      (wallet (bot (snd (@_check_order_status nat (Script.client both_filled)
                           1001 "buy" 99 (65 # 100000) local_ts_example
                           (machine_of resting_bot))))) !! 1001%Z = Some e
    /\ Wallet.eo_price_expected e = 99.
Proof.
  destruct (@filled_order_is_recorded nat (Script.client both_filled)
              1001 "buy" 99 (65 # 100000) local_ts_example
              (machine_of resting_bot)) as [H _].
  destruct H as (e & He & Hp & _); [vm_compute; reflexivity |].
  exists e. split; assumption.
Defined.

Lemma only_fills_are_applied_witness :
  let r := @reconcile_orders nat (Script.client calm) local_ts_example
             (machine_of resting_bot) in
  apply_orders (collect_orders (fst (fst r)) (snd (fst r))) resting_bot
  = resting_bot.
Proof.
  apply (@only_fills_are_applied nat (Script.client calm)); vm_compute; discriminate.
Defined.

Lemma waiting_orders_rest_witness :
  exists m_end,
    @cycle nat (Script.client calm) 100 0 local_ts_example (machine_of resting_bot)
      = Ok m_end
    /\ trace m_end = [].
Proof.
  destruct (@waiting_orders_rest nat (Script.client calm) 100 0 local_ts_example
              (machine_of resting_bot)
              (after_first_sample (machine_of resting_bot))
              CycleExamples.first_sample_both_filled)
    as (Hc & Ht & _).
  - vm_compute. reflexivity.
  - vm_compute. reflexivity.
  - eexists. split; [exact Hc | exact Ht].
Defined.

End OrderExamples.

(** ** Start-up on scripted exchanges *)

Module StartupWitnesses.
Import Examples.

Lemma on_start_after_save_witness :
  exists m',
    @_on_start nat (Script.client calm) 0 0
      (@_save_runtime_params nat (machine_of resting_bot)) = Ok m'
    /\ same_runtime_params resting_bot (bot m').
Proof.
  apply (@on_start_after_save nat (Script.client calm) resting_bot 0 0).
  reflexivity.
Defined.

Lemma on_start_missing_last_price_witness :
  exists m',
    @_on_start nat (Script.client calm) 0 0
      {| world := 0%nat; bot := start_bot;
         params_file := Some file_without_last_price; trace := [] |} = Ok m'
    /\ last_price (bot m') = 100
    /\ buy_order_id (bot m') = 1001%Z.
Proof.
  destruct (@on_start_missing_last_price nat (Script.client calm)
              file_without_last_price 0 0
              {| world := 0%nat; bot := start_bot;
                 params_file := Some file_without_last_price; trace := [] |})
    as (m' & E & L & _ & _ & B & _).
  - reflexivity.
  - vm_compute. reflexivity.
  - reflexivity.
  - exists m'. split; [exact E |]. split.
    + rewrite L. reflexivity.
    + rewrite B. vm_compute. reflexivity.
Defined.

Lemma init_without_last_price_witness :
  @init nat (Script.client calm) DEFAULT_TRADING_CONFIG 0%nat
    (Some file_without_last_price) = Raise AttributeError
  /\ @init nat (Script.client calm) DEFAULT_TRADING_CONFIG 0%nat None
     = Raise AttributeError.
Proof.
  split; apply (@init_without_last_price nat (Script.client calm)).
  - intros loaded [= <-]. vm_compute. reflexivity.
  - intros loaded H. discriminate H.
Defined.

Lemma init_resets_sizes_and_ids_witness :
  exists m,
    @init nat (Script.client calm) DEFAULT_TRADING_CONFIG 0%nat (Some saved_file)
      = Ok m
    /\ buy_order_id (bot m) = 0%Z
    /\ buy_size_btc (bot m) = order_start_size (bot m).
Proof.
  assert (H : exists m,
             @init nat (Script.client calm) DEFAULT_TRADING_CONFIG 0%nat
               (Some saved_file) = Ok m)
    by (vm_compute; eexists; reflexivity).
  destruct H as [m H]. exists m. split; [exact H |].
  destruct (@init_resets_sizes_and_ids nat (Script.client calm) _ _ _ _ H)
    as (B & _ & Z & _).
  split; assumption.
Defined.

End StartupWitnesses.

(** ** The exchange client *)

Module OKXFacts.
Import OKX.

Lemma send_requests_app {D : Type} (rs1 rs2 : list (response D)) (c : client) :
  send_requests (rs1 ++ rs2) c
  = (fst (send_requests rs1 c) ++ fst (send_requests rs2 (snd (send_requests rs1 c))),
     snd (send_requests rs2 (snd (send_requests rs1 c)))).
Proof.
  revert c. induction rs1 as [| r rs1 IH]; intros c.
  - cbn. destruct (send_requests rs2 c). reflexivity.
  - cbn [app send_requests].
    destruct (_send_request r c) as [slept c1].
    rewrite IH.
    destruct (send_requests rs1 c1) as [l1 c2]. cbn [fst snd].
    destruct (send_requests rs2 c2) as [l2 c3]. reflexivity.
Qed.

(** The waits double: through a run of responses that all report the ban,
    the client sleeps its current wait, then twice that, then four times,
    and so on, and ends with the wait multiplied by 2 to the number of
    responses. *)
Theorem ban_sleep_doubles {D : Type} (rs : list (response D)) (c : client) :
  (forall r, In r rs -> is_ban r = true) ->
  fst (send_requests rs c)
    = List.map (fun i => (2 ^ Z.of_nat i * ban_sleep_time c)%Z) (seq 0 (length rs))
  /\ ban_sleep_time (snd (send_requests rs c))
     = (2 ^ Z.of_nat (length rs) * ban_sleep_time c)%Z
  /\ client_config (snd (send_requests rs c)) = client_config c.
Proof.
  revert c. induction rs as [| r rs IH]; intros c Hban.
  - cbn. repeat split. lia.
  - cbn [send_requests]. unfold _send_request.
    rewrite (Hban r) by (left; reflexivity).
    specialize (IH {| client_config := client_config c;
                      ban_sleep_time := (2 * ban_sleep_time c)%Z |}
                   (fun r' H => Hban r' (or_intror H))).
    destruct (send_requests rs _) as [rest c2]. cbn [fst snd] in *.
    destruct IH as (I1 & I2 & I3). cbn [ban_sleep_time client_config] in *.
    split; [| split].
    + cbn [length seq List.map]. f_equal; [cbn; lia |].
      rewrite I1, <- seq_shift, List.map_map.
      apply List.map_ext. intros i.
      rewrite Nat2Z.inj_succ, Z.pow_succ_r by lia. ring.
    + rewrite I2. cbn [length].
      rewrite Nat2Z.inj_succ, Z.pow_succ_r by lia. ring.
    + exact I3.
Qed.

Lemma ban_sleep_doubles_witness :
  let ban : response unit :=
    {| resp_error := Some "HTTPSConnectionPool: Max retries exceeded with url";
       resp_data := None |} in
  fst (send_requests [ban; ban; ban]
         {| client_config := DEFAULT_EXCHANGE_CONFIG; ban_sleep_time := 60 |})
  = [60; 120; 240]%Z.
Proof.
  intros ban.
  apply (proj1 (ban_sleep_doubles [ban; ban; ban]
                  {| client_config := DEFAULT_EXCHANGE_CONFIG; ban_sleep_time := 60 |}
                  ltac:(intros r [<- | [<- | [<- | []]]]; reflexivity))).
Defined.

(** Any response that does not report the ban is passed on without a wait
    and puts the wait back to the configured initial value, however long
    the run before it was. *)
Theorem ban_sleep_resets {D : Type} (rs : list (response D)) (r : response D)
    (c : client) :
  is_ban r = false ->
  ban_sleep_time (snd (send_requests (rs ++ [r]) c))
    = initial_ban_sleep_seconds (client_config (snd (send_requests rs c)))
  /\ List.last (fst (send_requests (rs ++ [r]) c)) 1%Z = 0%Z.
Proof.
  intros Hok. rewrite send_requests_app. cbn [fst snd send_requests].
  unfold _send_request. rewrite Hok. cbn [fst snd ban_sleep_time].
  split; [reflexivity |]. apply List.last_last.
Qed.

Lemma ban_sleep_resets_witness :
  let ban : response unit :=
    {| resp_error := Some "HTTPSConnectionPool: Max retries exceeded with url";
       resp_data := None |} in
  let fine : response unit := {| resp_error := None; resp_data := Some tt |} in
  ban_sleep_time
    (snd (send_requests [ban; ban; fine]
            {| client_config := DEFAULT_EXCHANGE_CONFIG; ban_sleep_time := 60 |}))
  = 60%Z.
Proof.
  intros ban fine.
  apply (proj1 (ban_sleep_resets [ban; ban] fine
                  {| client_config := DEFAULT_EXCHANGE_CONFIG; ban_sleep_time := 60 |}
                  eq_refl)).
Defined.

(** The order report: without a row of data the order is reported as
    "failed" with zeros, which the bot reads as CANCELED; the fee is never
    negative; and for an order without fills the price is 0 and the text
    of the average price is not read, so it cannot fail. *)
Theorem order_report (r : response (list order_row)) :
  (resp_data r = None \/ resp_data r = Some [] ->
   check_order_status r = Some ("failed", 0, 0, 0)
   /\ status_of_exchange "failed" = CANCELED)
  /\ (forall row rest, resp_data r = Some (row :: rest) ->
      row_accFillSz row <= 0 ->
      check_order_status r
      = Some (row_state row, 0, row_accFillSz row, Qabs (row_fee row)))
  /\ (forall state price size fee,
      check_order_status r = Some (state, price, size, fee) -> 0 <= fee).
Proof.
  unfold check_order_status. split; [| split].
  - intros [H | H]; rewrite H; split; reflexivity.
  - intros row rest H Hle. rewrite H. cbn.
    apply gtb_le in Hle. rewrite Hle. reflexivity.
  - intros state price size fee.
    destruct (resp_data r) as [[| row rest] |].
    + intros [= _ _ _ <-]. lra.
    + destruct (gtb (row_accFillSz row) 0).
      * destruct (row_avgPx row); [| discriminate].
        intros [= _ _ _ <-]. apply Qabs_nonneg.
      * intros [= _ _ _ <-]. apply Qabs_nonneg.
    + intros [= _ _ _ <-]. lra.
Qed.

Lemma order_report_witness :
  check_order_status {| resp_error := Some "timeout"; resp_data := None |}
    = Some ("failed", 0, 0, 0)
  /\ check_order_status
       {| resp_error := None;
          resp_data := Some [{| row_state := "live"; row_accFillSz := 0;
                                row_fee := 0; row_avgPx := None |}] |}
     = Some ("live", 0, 0, Qabs 0).
Proof.
  split.
  - apply (proj1 (order_report {| resp_error := Some "timeout"; resp_data := None |})).
    left. reflexivity.
  - apply (proj1 (proj2 (order_report
               {| resp_error := None;
                  resp_data := Some [{| row_state := "live"; row_accFillSz := 0;
                                        row_fee := 0; row_avgPx := None |}] |}))
             _ [] eq_refl).
    vm_compute. discriminate.
Defined.

End OKXFacts.

(** ** The profit-and-loss series *)

Module PnlFacts.
Import Visualizer Examples PnlExamples.

Lemma pnl_loop_length (v : Q) (prices : list price_row) :
  forall holdings pending,
    length (pnl_loop v holdings pending prices) = length prices.
Proof.
  induction prices as [| row rows IH]; intros holdings pending.
  - reflexivity.
  - cbn [pnl_loop].
    destruct (replay_due (pr_timestamp row) holdings pending) as [h' p'].
    cbn [length]. rewrite IH. reflexivity.
Qed.

(** The series is aligned with the price rows: whenever it is returned it
    has one value per row.  It is not returned in exactly one case, an
    empty price frame together with at least one order. *)
Theorem pnl_series_is_aligned (prices : list price_row)
    (orders : option (list order_row)) :
  (forall series, calculate_pnl_from_orders prices orders = Some series ->
                  length series = length prices)
  /\ (calculate_pnl_from_orders prices orders = None <->
      prices = [] /\ exists first rest, orders = Some (first :: rest)).
Proof.
  unfold calculate_pnl_from_orders.
  destruct orders as [[| first rest] |].
  - split.
    + intros series [= <-]. apply repeat_length.
    + split; [discriminate | intros (_ & f & r & H); discriminate].
  - destruct (initial_holdings first) as [u b].
    destruct prices as [| row rows].
    + split; [discriminate |].
      split; [intros _; split; [reflexivity | eauto] | reflexivity].
    + split.
      * intros series H. injection H as <-.
        exact (pnl_loop_length _ (row :: rows) (u, b) (first :: rest)).
      * split; [discriminate | intros [H _]; discriminate].
  - split.
    + intros series [= <-]. apply repeat_length.
    + split; [discriminate | intros (_ & f & r & H); discriminate].
Qed.

Lemma pnl_series_is_aligned_witness :
  exists series,
    calculate_pnl_from_orders pnl_prices (Some [pnl_buy (minutes 1)]) = Some series
    /\ length series = 3%nat.
Proof.
  eexists. split; [reflexivity |].
  apply (proj1 (pnl_series_is_aligned pnl_prices (Some [pnl_buy (minutes 1)]))).
  reflexivity.
Defined.

Lemma pnl_loop_before_orders (v : Q) (holdings : Q * Q) (first : order_row)
    (rest : list order_row) (prices : list price_row) :
  (forall row, In row prices -> (pr_timestamp row < or_local_ts first)%Z) ->
  pnl_loop v holdings (first :: rest) prices
  = List.map (fun row => fst holdings + snd holdings * pr_price row - v) prices.
Proof.
  induction prices as [| row rows IH]; intros Hbefore.
  - reflexivity.
  - cbn [pnl_loop replay_due List.map].
    assert (E : (or_local_ts first <=? pr_timestamp row)%Z = false).
    { apply Z.leb_gt. apply Hbefore. left. reflexivity. }
    rewrite E. f_equal. apply IH.
    intros r Hr. apply Hbefore. right. exact Hr.
Qed.

(** Before the first order is due, the series marks the reconstructed
    initial holdings to market: each value is the initial amount of the
    base asset times the move of the price since the first row. *)
Theorem pnl_before_first_order (first_row : price_row) (rows : list price_row)
    (first : order_row) (rest : list order_row) :
  (forall row, In row (first_row :: rows) ->
               (pr_timestamp row < or_local_ts first)%Z) ->
  exists series,
    calculate_pnl_from_orders (first_row :: rows) (Some (first :: rest))
      = Some series
    /\ Forall2 (fun value row =>
                  value == snd (initial_holdings first)
                           * (pr_price row - pr_price first_row))
               series (first_row :: rows).
Proof.
  intros Hbefore. unfold calculate_pnl_from_orders.
  destruct (initial_holdings first) as [u b] eqn:Eh.
  eexists. split; [reflexivity |].
  rewrite (pnl_loop_before_orders _ _ _ _ _ Hbefore).
  cbn [fst snd].
  generalize (first_row :: rows). intros l.
  induction l as [| row l IH]; constructor; [ring | exact IH].
Qed.

Lemma pnl_before_first_order_witness :
  exists series,
    calculate_pnl_from_orders pnl_prices (Some [pnl_buy (minutes 5)]) = Some series
    /\ Forall2 (fun value row => value == 2 * (pr_price row - 100))
               series pnl_prices.
Proof.
  exact (pnl_before_first_order
           {| pr_timestamp := 0; pr_price := 100 |}
           [{| pr_timestamp := minutes 1; pr_price := 101 |};
            {| pr_timestamp := minutes 2; pr_price := 102 |}]
           (pnl_buy (minutes 5)) []
           ltac:(intros row [<- | [<- | [<- | []]]]; reflexivity)).
Defined.

(** Undoing the first order and replaying it gives back the balances the
    order recorded, short of the fee: a buy leaves the recorded quote
    balance and the recorded base balance minus the fee, a sell the
    recorded base balance and the recorded quote balance minus the fee. *)
Theorem first_order_replay (first : order_row) :
  let fee := match or_fee first with Some f => f | None => 0 end in
  (or_side first = "buy" ->
   fst (replay_order (initial_holdings first) first) == or_account_usdt_size first
   /\ snd (replay_order (initial_holdings first) first)
      == or_account_btc_size first - fee)
  /\ (or_side first = "sell" ->
      fst (replay_order (initial_holdings first) first)
        == or_account_usdt_size first - fee
      /\ snd (replay_order (initial_holdings first) first)
         == or_account_btc_size first).
Proof.
  cbv zeta. unfold replay_order, initial_holdings.
  split; intros ->; cbn; split; ring.
Qed.

Lemma first_order_replay_witness :
  fst (replay_order (initial_holdings (pnl_buy 0)) (pnl_buy 0)) == 899
  /\ snd (replay_order (initial_holdings (pnl_buy 0)) (pnl_buy 0)) == 3 - 0.
Proof.
  apply (proj1 (first_order_replay (pnl_buy 0))). reflexivity.
Defined.

End PnlFacts.

(** ** The affordability check on binary64 *)

Module Wallet64Facts.
Import Wallet64.

Lemma buy_answer (w : WalletManager) (price size_btc : float) :
  check_order_size w price size_btc "buy"
  = Ok (if _check_buy_order w price size_btc then size_btc else 0%float).
Proof.
  unfold check_order_size. simpl.
  destruct (_check_buy_order w price size_btc); reflexivity.
Qed.

Lemma sell_answer (w : WalletManager) (price size_btc : float) :
  check_order_size w price size_btc "sell"
  = Ok (if _check_sell_order w price size_btc then size_btc else 0%float).
Proof.
  unfold check_order_size. simpl.
  destruct (_check_sell_order w price size_btc); reflexivity.
Qed.

(** C3 as stated fails on the floats of the code.  With the taker rate
    0.001, a price of 1000 and a size of 1, the cost in binary64 is
    1000.9999999999999 (the sum 1 + 0.001 rounds down): a quote balance of
    1000.9999999999999 is not below it and the buy is approved, although
    the balance is below the product of the three stored numbers.  The
    sell of size 1 against a base balance of 1.001 is approved in the same
    way. *)
Lemma binary64_threshold_counterexample :
  exists usdt btc rate,
    exact (current_usdt tight_ledger) = Some usdt
    /\ exact (current_btc tight_ledger) = Some btc
    /\ exact (commission_rate tight_ledger) = Some rate
    /\ exact 1000%float = Some 1000 /\ exact 1%float = Some 1
    /\ usdt < 1 * 1000 * (1 + rate)
    /\ check_order_size tight_ledger 1000 1 "buy" = Ok 1%float
    /\ btc < 1 * (1 + rate)
    /\ check_order_size tight_ledger 1000 1 "sell" = Ok 1%float.
Proof.
  do 3 eexists.
  split; [vm_compute; reflexivity |].
  split; [vm_compute; reflexivity |].
  split; [vm_compute; reflexivity |].
  split; [vm_compute; reflexivity |].
  split; [vm_compute; reflexivity |].
  split; [vm_compute; reflexivity |].
  split; [vm_compute; reflexivity |].
  split; [vm_compute; reflexivity |].
  vm_compute. reflexivity.
Qed.

(** C3, amended.  With the cost of a buy computed as the code computes it,
    [size * price * (1 + commission_rate)] rounded to binary64 after each
    operation, a buy is answered with 0.0 when the quote balance is below
    that cost and with the requested size, unchanged, otherwise; a sell
    likewise against the base balance and the rounded
    [size * (1 + commission_rate)].  For a request that is not zero the
    answer is zero exactly in the rejected case.  There is no partial
    sizing. *)
Theorem check_order_size_binary64 (w : WalletManager) (price size_btc : float) :
  let buy_cost := (size_btc * price * (1 + commission_rate w))%float in
  let sell_need := (size_btc * (1 + commission_rate w))%float in
  (PrimFloat.ltb (current_usdt w) buy_cost = true ->
   check_order_size w price size_btc "buy" = Ok 0%float)
  /\ (PrimFloat.ltb (current_usdt w) buy_cost = false ->
      check_order_size w price size_btc "buy" = Ok size_btc)
  /\ (PrimFloat.ltb (current_btc w) sell_need = true ->
      check_order_size w price size_btc "sell" = Ok 0%float)
  /\ (PrimFloat.ltb (current_btc w) sell_need = false ->
      check_order_size w price size_btc "sell" = Ok size_btc)
  /\ (PrimFloat.eqb size_btc 0 = false ->
      forall r, check_order_size w price size_btc "buy" = Ok r ->
                (PrimFloat.eqb r 0 = true <->
                 PrimFloat.ltb (current_usdt w) buy_cost = true))
  /\ (PrimFloat.eqb size_btc 0 = false ->
      forall r, check_order_size w price size_btc "sell" = Ok r ->
                (PrimFloat.eqb r 0 = true <->
                 PrimFloat.ltb (current_btc w) sell_need = true)).
Proof.
  cbv zeta.
  rewrite buy_answer, sell_answer.
  unfold _check_buy_order, _check_sell_order.
  destruct (PrimFloat.ltb (current_usdt w) _);
  destruct (PrimFloat.ltb (current_btc w) _);
  repeat split; intros;
  repeat match goal with
  | H : Ok _ = Ok _ |- _ => injection H as H; subst
  end; try reflexivity; try discriminate; try congruence.
Qed.

Lemma check_order_size_binary64_witness :
  check_order_size tight_ledger 1000 2 "buy" = Ok 0%float
  /\ check_order_size tight_ledger 1000 2 "sell" = Ok 0%float
  /\ check_order_size tight_ledger 1000 1 "buy" = Ok 1%float
  /\ check_order_size tight_ledger 1000 1 "sell" = Ok 1%float
  /\ (PrimFloat.eqb 1 0 = true <->
      PrimFloat.ltb (current_usdt tight_ledger)
        (1 * 1000 * (1 + commission_rate tight_ledger))%float = true).
Proof.
  destruct (check_order_size_binary64 tight_ledger 1000 2) as (A & _ & C & _).
  destruct (check_order_size_binary64 tight_ledger 1000 1) as (_ & B & _ & D & E & _).
  split; [apply A; vm_compute; reflexivity |].
  split; [apply C; vm_compute; reflexivity |].
  split; [apply B; vm_compute; reflexivity |].
  split; [apply D; vm_compute; reflexivity |].
  apply E; [vm_compute; reflexivity |].
  apply B. vm_compute. reflexivity.
Defined.

(** The decimal reading of the same check: 0.00059 * 1000 * 1.001 is
    0.59059, so on exact decimals a balance of 0.59059 covers the order;
    on the floats nearest to these numbers the cost comes out as
    0.5905900000000001 and the order is turned down. *)
Example decimal_and_binary64_disagree :
  (59 # 100000) * 1000 * (1 + (1 # 1000)) == 59059 # 100000
  /\ check_order_size
       (init 0 0x1.2e61cffeb074ap-1 0x1.a36e2eb1c432dp-11
             0x1.0624dd2f1a9fcp-10 Wallet.MAKER)
       1000 0x1.355475a31a4bep-11 "buy" = Ok 0%float.
Proof. split; vm_compute; reflexivity. Qed.

End Wallet64Facts.
